(** * View-state controller of the admin and user dashboards

    A shallow embedding of [app/static/js/admin.js] and
    [app/static/js/user.js]: the tab / section switching code and the
    employee-list pagination, together with the properties the
    specification states about them.

    Modelling conventions.
    - The document is a finite map from element ids to elements
      ([document.getElementById] is a lookup; a missing element is the
      JavaScript [null]).  Elements are shared by id, so two references to
      the same element alias as they do in the browser.
    - The module-level [let] variables of admin.js ([currentPage],
      [totalEmployees]) are fields of the [World] record, next to the
      document, [window.location.href] and the log of [fetch] calls.
    - JavaScript numbers are mathematical integers: the server contract
      gives [total] and [page] as integers, and on integers below 2^53 the
      double division by 7 followed by [Math.ceil] is the exact ceiling.
    - An [async] function is split at its [await]: the part that runs
      synchronously up to the [fetch] call, and the continuation that runs
      when the reply arrives.  Replies are taken to follow the shape of
      the HTTP contract: a body that parses has [employees] / [clubs]
      absent or a sequence of records, and integer [total] and [page].
    - Of the club form, the two submit handlers are modelled, with
      [String.prototype.trim] as a parameter; the cookie lookup and the
      [DOMContentLoaded] listener are modelled on the text of
      [document.cookie].  The listeners that need the identity of a
      rendered card or markup read back from the page (delete, edit,
      opening a club, copying its URL) are left out. *)

From stdpp Require Import gmap strings list fin_maps pretty.
From Stdlib Require Import ZArith Lia Ascii.

Local Open Scope Z_scope.

(** ** The document *)

(** Records drawn in the employee list. *)
Record Employee := {
  emp_id : Z;
  emp_name : string;
  member_code : option string;
  image_path : option string
}.

Record Club := {
  club_id : Z;
  club_name : string;
  club_code : string;
  club_url : string
}.

(** Nodes the scripts build with [document.createElement] and append to a
    list container: an employee row (the four cells of its template
    literal) or a club card. *)
Inductive Child :=
| UserRow (id : Z) (name code img : string)
| ClubCard (c : Club).

(** Markup assigned to [innerHTML]: either text we do not look into, or
    one paragraph [<p class=cls>txt</p>]. *)
Inductive Markup :=
| Raw (s : string)
| P (cls txt : string).

(** The properties of a DOM element that the two scripts read or write. *)
Record Element := {
  classList : gset string;   (* [el.classList] *)
  display : string;          (* [el.style.display], empty when unset *)
  disabled : bool;           (* [el.disabled] *)
  innerText : string;        (* [el.innerText] *)
  innerHTML : Markup;        (* markup last assigned to [el.innerHTML] *)
  children : list Child      (* nodes added with [appendChild] since then *)
}.

Definition set_classList (c : gset string) (e : Element) : Element :=
  {| classList := c; display := display e; disabled := disabled e;
     innerText := innerText e; innerHTML := innerHTML e;
     children := children e |}.

Definition set_display (d : string) (e : Element) : Element :=
  {| classList := classList e; display := d; disabled := disabled e;
     innerText := innerText e; innerHTML := innerHTML e;
     children := children e |}.

Definition set_disabled (b : bool) (e : Element) : Element :=
  {| classList := classList e; display := display e; disabled := b;
     innerText := innerText e; innerHTML := innerHTML e;
     children := children e |}.

Definition set_innerText (t : string) (e : Element) : Element :=
  {| classList := classList e; display := display e; disabled := disabled e;
     innerText := t; innerHTML := innerHTML e; children := children e |}.

(** Assigning [innerHTML] replaces whatever the element contained. *)
Definition set_innerHTML (h : Markup) (e : Element) : Element :=
  {| classList := classList e; display := display e; disabled := disabled e;
     innerText := innerText e; innerHTML := h; children := [] |}.

Definition appendChild (r : Child) (e : Element) : Element :=
  {| classList := classList e; display := display e; disabled := disabled e;
     innerText := innerText e; innerHTML := innerHTML e;
     children := children e ++ [r] |}.

Definition classList_add (c : string) (e : Element) : Element :=
  set_classList ({[ c ]} ∪ classList e) e.

Definition classList_remove (c : string) (e : Element) : Element :=
  set_classList (classList e ∖ {[ c ]}) e.

Definition has_class (c : string) (e : Element) : bool :=
  bool_decide (c ∈ classList e).

(** Whether an element is painted.  An inline [style.display] wins over
    the style sheet; without one, the utility class [hidden] (display:
    none) decides. *)
Definition visible (e : Element) : bool :=
  if decide (display e = "") then negb (has_class "hidden" e)
  else negb (bool_decide (display e = "none")).

Abbreviation Document := (gmap string Element).

(** [document.getElementById(id)]: the element's key, or [None] for
    [null]. *)
Definition getElementById (id : string) (doc : Document) : option string :=
  match doc !! id with
  | Some _ => Some id
  | None => None
  end.

(** ** Requests and replies *)

(** The [fetch] calls of the list views. *)
Inductive Request :=
| GetEmployeesPage (page size : Z)   (* [/employees?page=..&size=..] *)
| GetEmployees                       (* [/employees/], user.js *)
| GetClubs.                          (* [/clubs] *)

(** The parsed JSON body.  A field the server left out is [None]. *)
Record Body := {
  employees : option (list Employee);
  clubs : option (list Club);
  total : Z;
  page : Z
}.

(** The [Response] object: [res.ok], and the body [res.json()] parses
    ([None] when the body is not JSON and [res.json()] rejects). *)
Record Response := {
  res_ok : bool;
  res_body : option Body
}.

(** What the browser hands back for one [fetch]. *)
Inductive Reply :=
| NetworkError               (* the [fetch] promise rejects *)
| Answer (res : Response).   (* it resolves, with any HTTP status *)

(** ** Exceptions

    The body of a [try] block either completes or throws. *)
Inductive Exn := FetchRejected | JsonRejected.

Inductive Result (A : Type) :=
| Ok (a : A)
| Throw (e : Exn).
Arguments Ok {A} a.
Arguments Throw {A} e.

Definition bind {A B : Type} (m : Result A) (k : A → Result B) : Result B :=
  match m with
  | Ok a => k a
  | Throw e => Throw e
  end.

Notation "'await' x <- m ; k" := (bind m (fun x => k))
  (at level 10, x name, m at level 100, k at level 200).

(** [try { body } catch (err) { handler }] *)
Definition try_catch {A : Type} (body : Result A) (handler : Exn → Result A)
    : Result A :=
  match body with
  | Ok a => Ok a
  | Throw e => handler e
  end.

(** [await fetch(url)], given the reply that arrives. *)
Definition await_fetch (r : Reply) : Result Response :=
  match r with
  | NetworkError => Throw FetchRejected
  | Answer res => Ok res
  end.

(** [await res.json()] *)
Definition res_json (res : Response) : Result Body :=
  match res_body res with
  | Some data => Ok data
  | None => Throw JsonRejected
  end.

(** [xs && xs.length > 0] *)
Definition nonempty {A : Type} (xs : option (list A)) : bool :=
  match xs with
  | Some (_ :: _) => true
  | _ => false
  end.

(** ** The world *)

Record World := {
  document : Document;
  currentPage : Z;              (* [let currentPage = 1] *)
  totalEmployees : Z;           (* [let totalEmployees = 0] *)
  location_href : string;       (* [window.location.href] *)
  requests : list Request;      (* every [fetch] issued, oldest first *)
  pending : list Request        (* those not yet answered *)
}.

Definition set_document (d : Document) (w : World) : World :=
  {| document := d; currentPage := currentPage w;
     totalEmployees := totalEmployees w; location_href := location_href w;
     requests := requests w; pending := pending w |}.

Definition set_currentPage (p : Z) (w : World) : World :=
  {| document := document w; currentPage := p;
     totalEmployees := totalEmployees w; location_href := location_href w;
     requests := requests w; pending := pending w |}.

Definition set_totalEmployees (n : Z) (w : World) : World :=
  {| document := document w; currentPage := currentPage w;
     totalEmployees := n; location_href := location_href w;
     requests := requests w; pending := pending w |}.

Definition set_location_href (u : string) (w : World) : World :=
  {| document := document w; currentPage := currentPage w;
     totalEmployees := totalEmployees w; location_href := u;
     requests := requests w; pending := pending w |}.

Definition with_document (f : Document → Document) (w : World) : World :=
  set_document (f (document w)) w.

(** [fetch(url)]: the call is logged and left pending. *)
Definition fetch (r : Request) (w : World) : World :=
  {| document := document w; currentPage := currentPage w;
     totalEmployees := totalEmployees w; location_href := location_href w;
     requests := requests w ++ [r]; pending := pending w ++ [r] |}.

(** [if (el) el.prop = ...]: an update through a possibly-null reference. *)
Definition update (el : option string) (f : Element → Element)
    (doc : Document) : Document :=
  match el with
  | Some k => alter f k doc
  | None => doc
  end.

(** ** Pagination arithmetic *)

Definition pageSize : Z := 7.

(** [Math.ceil(n / d)] for a positive [d]. *)
Definition ceil_div (n d : Z) : Z := - ((- n) / d).

(** [x || 1] on a number: zero is falsy. *)
Definition or_one (x : Z) : Z := if x =? 0 then 1 else x.

(** [Math.ceil(totalEmployees / pageSize) || 1], the page count of
    [updatePaginationUI]. *)
Definition totalPages (total : Z) : Z := or_one (ceil_div total pageSize).

(** The page count the [nextPage] listener computes: the same ceiling,
    without the [|| 1]. *)
Definition totalPages_click (total : Z) : Z := ceil_div total pageSize.

(** ** Tab and section switching, shared by both scripts

    [setActiveTab] is the same function in admin.js and user.js. *)

(** What the [forEach] over [querySelectorAll(".nav-tab")] does to one
    element of the document: elements of class [nav-tab] lose
    [nav-active], the others are not selected. *)
Definition deactivate (tab : Element) : Element :=
  if has_class "nav-tab" tab then classList_remove "nav-active" tab else tab.

Definition setActiveTab (activeTab : option string) (doc : Document)
    : Document :=
  let doc1 := deactivate <$> doc in
  update activeTab (classList_add "nav-active") doc1.

(** The tabs of the navigation bar, as the specification names them. *)
Inductive Tab := users | club | attendance | scan | logout.

Definition tab_id (t : Tab) : string :=
  match t with
  | users => "usersTab"
  | club => "clubTab"
  | attendance => "attendanceTab"
  | scan => "scanTab"
  | logout => "logoutTab"
  end.

(** Top-level element references, resolved against the loaded document. *)
Definition usersTab := getElementById "usersTab".
Definition clubTab := getElementById "clubTab".
Definition attendanceTab := getElementById "attendanceTab".
Definition logoutTab := getElementById "logoutTab".
Definition employeesSection := getElementById "employeesSection".
Definition clubSection := getElementById "clubSection".
Definition userRows := getElementById "userRows".
Definition clubCards := getElementById "clubCards".
Definition prevPageBtn := getElementById "prevPage".
Definition nextPageBtn := getElementById "nextPage".
Definition currentPageNumDisplay := getElementById "currentPageNum".
Definition totalPageNumDisplay := getElementById "totalPageNum".

Definition slate_paragraph (txt : string) : Markup :=
  P "text-center text-slate-400 py-4" txt.
Definition red_paragraph (txt : string) : Markup :=
  P "text-center text-red-500 py-4" txt.

Definition defaultProfileIcon : string := "/static/images/profile_icon.png".

(** A string used as a condition, or on the left of [||]: absent and
    empty strings are falsy. *)
Definition truthy (s : option string) : option string :=
  match s with
  | Some "" => None
  | other => other
  end.

(** The row [fetchUsers] builds for one employee. *)
Definition userRow (emp : Employee) : Child :=
  let imageSrc :=
    match truthy (image_path emp) with
    | Some path => "/uploads/" +:+ path
    | None => defaultProfileIcon
    end in
  UserRow (emp_id emp) (emp_name emp)
          (default "-" (truthy (member_code emp))) imageSrc.

(** [fetchClubs] is the same in both scripts up to the spelling of the
    URL. *)
Definition fetchClubs_start (w : World) : World :=
  match clubCards (document w) with
  | None => w
  | Some cards =>
      fetch GetClubs
        (with_document
           (alter (set_innerHTML (slate_paragraph "Loading clubs...")) cards)
           w)
  end.

Definition fetchClubs_try (cards : string) (r : Reply) (w : World)
    : Result World :=
  await res <- await_fetch r;
  await data <- res_json res;
  if res_ok res && nonempty (clubs data) then
    let w1 := with_document (alter (set_innerHTML (Raw "")) cards) w in
    Ok (foldl (λ w' c, with_document (alter (appendChild (ClubCard c)) cards) w')
              w1 (default [] (clubs data)))
  else
    Ok (with_document
          (alter (set_innerHTML (slate_paragraph "No clubs found.")) cards) w).

Definition fetchClubs_resume (r : Reply) (w : World) : Result World :=
  match clubCards (document w) with
  | None => Ok w
  | Some cards =>
      try_catch (fetchClubs_try cards r w)
        (λ err, Ok (with_document
                      (alter (set_innerHTML (red_paragraph "Error fetching clubs."))
                             cards) w))
  end.

(** The three tabs that leave the page. *)
Definition attendanceTab_click : World → World := set_location_href "/attendance".
Definition scanTab_click : World → World := set_location_href "/scan".
Definition logoutTab_click : World → World := set_location_href "/logout".

(** Events of the page: a click on the element with a given id, or the
    arrival of the reply to the [i]-th pending request. *)
Inductive Event :=
| Click (id : string)
| Respond (i : nat) (r : Reply).

(** ** admin.js *)
Module Admin.

Definition hide (s : Element) : Element :=
  set_display "none" (classList_add "hidden" s).

Definition reveal (s : Element) : Element :=
  set_display "flex" (classList_remove "hidden" s).

Definition showSection (targetSection : option string) (doc : Document)
    : Document :=
  let sections := [employeesSection doc; clubSection doc] in
  let doc1 := foldl (λ d s, update s hide d) doc sections in
  update targetSection reveal doc1.

Definition updatePaginationUI (w : World) : World :=
  let totalPages := totalPages (totalEmployees w) in
  let doc := document w in
  let doc := update (currentPageNumDisplay doc)
               (set_innerText (pretty (currentPage w))) doc in
  let doc := update (totalPageNumDisplay doc)
               (set_innerText (pretty totalPages)) doc in
  let doc := update (prevPageBtn doc)
               (set_disabled (currentPage w <=? 1)) doc in
  let doc := update (nextPageBtn doc)
               (set_disabled (currentPage w >=? totalPages)) doc in
  set_document doc w.

(** [fetchUsers(page)] up to and including the [fetch] call. *)
Definition fetchUsers_start (page : Z) (w : World) : World :=
  match userRows (document w) with
  | None => w
  | Some rows =>
      fetch (GetEmployeesPage page pageSize)
        (with_document
           (alter (set_innerHTML (slate_paragraph "Loading users...")) rows)
           w)
  end.

(** The rest of the [try] block, run when the reply is in. *)
Definition fetchUsers_try (rows : string) (r : Reply) (w : World)
    : Result World :=
  await res <- await_fetch r;
  await data <- res_json res;
  if res_ok res && nonempty (employees data) then
    let w1 := with_document (alter (set_innerHTML (Raw "")) rows) w in
    let w2 := set_totalEmployees (total data) w1 in
    let w3 := set_currentPage (page data) w2 in
    let w4 :=
      foldl (λ w' emp,
               with_document (alter (appendChild (userRow emp)) rows) w')
            w3 (default [] (employees data)) in
    Ok (updatePaginationUI w4)
  else
    let w1 := with_document
                (alter (set_innerHTML (slate_paragraph "No users found."))
                       rows) w in
    let w2 := set_totalEmployees 0 w1 in
    Ok (updatePaginationUI w2).

Definition fetchUsers_resume (r : Reply) (w : World) : Result World :=
  match userRows (document w) with
  | None => Ok w
  | Some rows =>
      try_catch (fetchUsers_try rows r w)
        (λ err,
           Ok (with_document
                 (alter (set_innerHTML
                           (red_paragraph "Error connecting to server."))
                        rows) w))
  end.

(** The block under [// --- Initial Setup ---]. *)
Definition initial_setup (w : World) : World :=
  match usersTab (document w) with
  | None => w
  | Some _ =>
      let w := with_document (setActiveTab (usersTab (document w))) w in
      let w := with_document (showSection (employeesSection (document w))) w in
      let w := set_currentPage 1 w in
      fetchUsers_start (currentPage w) w
  end.

(** The page as the script first sees it: the markup of the template
    and the initial values of the module variables. *)
Definition load (doc : Document) : World :=
  initial_setup
    {| document := doc; currentPage := 1; totalEmployees := 0;
       location_href := "/"; requests := []; pending := [] |}.

Definition usersTab_click (w : World) : World :=
  let w := with_document (setActiveTab (usersTab (document w))) w in
  let w := with_document (showSection (employeesSection (document w))) w in
  let w := set_currentPage 1 w in
  fetchUsers_start (currentPage w) w.

Definition clubTab_click (w : World) : World :=
  let w := with_document (setActiveTab (clubTab (document w))) w in
  let w := with_document (showSection (clubSection (document w))) w in
  fetchClubs_start w.

Definition prevPageBtn_click (w : World) : World :=
  if 1 <? currentPage w then fetchUsers_start (currentPage w - 1) w
  else w.

Definition nextPageBtn_click (w : World) : World :=
  let totalPages := totalPages_click (totalEmployees w) in
  if currentPage w <? totalPages then fetchUsers_start (currentPage w + 1) w
  else w.

(** The listener registered on an element, if any.  Listeners are
    registered under [if (el)], so an absent element has none. *)
Definition listener (id : string) : option (World → World) :=
  if decide (id = "usersTab") then Some usersTab_click
  else if decide (id = "clubTab") then Some clubTab_click
  else if decide (id = "attendanceTab") then Some attendanceTab_click
  else if decide (id = "scanTab") then Some scanTab_click
  else if decide (id = "logoutTab") then Some logoutTab_click
  else if decide (id = "prevPage") then Some prevPageBtn_click
  else if decide (id = "nextPage") then Some nextPageBtn_click
  else None.

Definition click (id : string) (w : World) : World :=
  match getElementById id (document w), listener id with
  | Some _, Some handler => handler w
  | _, _ => w
  end.

(** The continuation waiting on a request. *)
Definition continuation (req : Request) (r : Reply) (w : World)
    : Result World :=
  match req with
  | GetEmployeesPage _ _ => fetchUsers_resume r w
  | GetEmployees => Ok w
  | GetClubs => fetchClubs_resume r w
  end.

(** One turn of the event loop.  A continuation that threw would leave
    a rejected promise behind and the world as it was. *)
Definition step (w : World) (ev : Event) : World :=
  match ev with
  | Click id => click id w
  | Respond i r =>
      match pending w !! i with
      | None => w
      | Some req =>
          let w1 :=
            {| document := document w; currentPage := currentPage w;
               totalEmployees := totalEmployees w;
               location_href := location_href w; requests := requests w;
               pending := delete i (pending w) |} in
          match continuation req r w1 with
          | Ok w2 => w2
          | Throw _ => w1
          end
      end
  end.

Definition run (w : World) (evs : list Event) : World := foldl step w evs.

(** The operations of the specification, as the clicks that perform
    them. *)
Definition selectTab (t : Tab) (w : World) : World := click (tab_id t) w.

Definition selectTabs (ts : list Tab) (w : World) : World :=
  foldl (λ w' t, selectTab t w') w ts.

Definition goToPage (delta : Z) (w : World) : World :=
  if delta =? -1 then click "prevPage" w
  else if delta =? 1 then click "nextPage" w
  else w.

End Admin.

(** ** user.js *)
Module User.

Definition showSection (sectionToShow : option string) (doc : Document)
    : Document :=
  let doc := update (employeesSection doc) (set_display "none") doc in
  let doc := update (clubSection doc) (set_display "none") doc in
  update sectionToShow
    (λ s, classList_remove "hidden" (set_display "flex" s)) doc.

Definition fetchUsers_start (w : World) : World :=
  match userRows (document w) with
  | None => w
  | Some rows =>
      fetch GetEmployees
        (with_document
           (alter (set_innerHTML (slate_paragraph "Loading users...")) rows)
           w)
  end.

Definition fetchUsers_try (rows : string) (r : Reply) (w : World)
    : Result World :=
  await res <- await_fetch r;
  await data <- res_json res;
  if res_ok res && nonempty (employees data) then
    let w1 := with_document (alter (set_innerHTML (Raw "")) rows) w in
    Ok (foldl (λ w' emp,
                 with_document (alter (appendChild (userRow emp)) rows) w')
              w1 (default [] (employees data)))
  else
    Ok (with_document
          (alter (set_innerHTML (slate_paragraph "No users found.")) rows)
          w).

Definition fetchUsers_resume (r : Reply) (w : World) : Result World :=
  match userRows (document w) with
  | None => Ok w
  | Some rows =>
      try_catch (fetchUsers_try rows r w)
        (λ err,
           Ok (with_document
                 (alter (set_innerHTML
                           (red_paragraph "Error connecting to server."))
                        rows) w))
  end.

Definition initial_setup (w : World) : World :=
  match usersTab (document w) with
  | None => w
  | Some _ =>
      let w := with_document (setActiveTab (usersTab (document w))) w in
      let w := with_document (showSection (employeesSection (document w))) w in
      fetchUsers_start w
  end.

Definition load (doc : Document) : World :=
  initial_setup
    {| document := doc; currentPage := 1; totalEmployees := 0;
       location_href := "/"; requests := []; pending := [] |}.

Definition usersTab_click (w : World) : World :=
  let w := with_document (setActiveTab (usersTab (document w))) w in
  let w := with_document (showSection (employeesSection (document w))) w in
  fetchUsers_start w.

Definition clubTab_click (w : World) : World :=
  let w := with_document (setActiveTab (clubTab (document w))) w in
  let w := with_document (showSection (clubSection (document w))) w in
  fetchClubs_start w.

Definition listener (id : string) : option (World → World) :=
  if decide (id = "usersTab") then Some usersTab_click
  else if decide (id = "clubTab") then Some clubTab_click
  else if decide (id = "attendanceTab") then Some attendanceTab_click
  else if decide (id = "scanTab") then Some scanTab_click
  else if decide (id = "logoutTab") then Some logoutTab_click
  else None.

Definition click (id : string) (w : World) : World :=
  match getElementById id (document w), listener id with
  | Some _, Some handler => handler w
  | _, _ => w
  end.

Definition selectTab (t : Tab) (w : World) : World := click (tab_id t) w.

Definition selectTabs (ts : list Tab) (w : World) : World :=
  foldl (λ w' t, selectTab t w') w ts.

End User.

(** ** A sample page

    A document with every element the scripts look up, the way a
    dashboard template would lay it out: five navigation tabs of class
    [nav-tab], the two sections (the club section initially hidden), the
    list containers and the pagination controls. *)

Definition element (cls : list string) : Element :=
  {| classList := list_to_set cls; display := ""; disabled := false;
     innerText := ""; innerHTML := Raw ""; children := [] |}.

Definition sample_document : Document :=
  list_to_map
    [ ("usersTab", element ["nav-tab"]);
      ("clubTab", element ["nav-tab"]);
      ("attendanceTab", element ["nav-tab"]);
      ("scanTab", element ["nav-tab"]);
      ("logoutTab", element ["nav-tab"]);
      ("employeesSection", element []);
      ("clubSection", element ["hidden"]);
      ("userRows", element []);
      ("clubCards", element []);
      ("prevPage", element []);
      ("nextPage", element []);
      ("currentPageNum", element []);
      ("totalPageNum", element []) ].

Definition sample_employee (n : Z) : Employee :=
  {| emp_id := n; emp_name := "employee"; member_code := None;
     image_path := None |}.

Definition sample_employees (first count : Z) : list Employee :=
  sample_employee <$> seqZ first count.

(** A well-formed reply to a page request: [n] records, the given total
    and page. *)
Definition page_reply (records : list Employee) (t p : Z) : Reply :=
  Answer {| res_ok := true;
            res_body := Some {| employees := Some records; clubs := None;
                                total := t; page := p |} |}.

(** ** Observations the statements are phrased with *)

(** The element with this id exists (the reference is not [null]). *)
Definition bound (id : string) (doc : Document) : Prop := is_Some (doc !! id).

Definition is_visible (id : string) (doc : Document) : bool :=
  from_option visible false (doc !! id).

Definition is_active (id : string) (doc : Document) : bool :=
  from_option (has_class "nav-active") false (doc !! id).

Definition is_disabled (id : string) (doc : Document) : bool :=
  from_option disabled false (doc !! id).


(** The specification's page invariant. *)
Definition page_invariant (w : World) : Prop :=
  1 ≤ currentPage w ≤ totalPages (totalEmployees w).

(** A fetch was issued between two worlds. *)
Definition issued (before after : World) : list Request :=
  drop (length (requests before)) (requests after).

(** The pagination controls agree with the page state. *)
Definition controls_match (w : World) : Prop :=
  (∀ e, document w !! "prevPage" = Some e →
        (disabled e = true ↔ currentPage w ≤ 1)) ∧
  (∀ e, document w !! "nextPage" = Some e →
        (disabled e = true ↔ totalPages (totalEmployees w) ≤ currentPage w)).

(** The specification's failed fetch: a network error or a non-success
    HTTP status. *)
Definition fetch_failed (r : Reply) : Prop :=
  r = NetworkError ∨ ∃ res, r = Answer res ∧ res_ok res = false.

(** A reply the script cannot read: the [fetch] promise rejects, or the
    body is not JSON and [res.json()] rejects. *)
Definition rejected (r : Reply) : Prop :=
  r = NetworkError ∨ ∃ ok, r = Answer {| res_ok := ok; res_body := None |}.

(** What the specification says of a failed page fetch: [fetchUsers]
    returns normally, the page state is as before, the listing holds the
    connectivity-error paragraph, and no further request went out. *)
Definition failure_handled (w : World) (r : Reply) : Prop :=
  ∃ w', Admin.fetchUsers_resume r w = Ok w' ∧
        currentPage w' = currentPage w ∧
        totalEmployees w' = totalEmployees w ∧
        innerHTML <$> document w' !! "userRows"
        = Some (P "text-center text-red-500 py-4" "Error connecting to server.") ∧
        requests w' = requests w.

(** The page the counterexamples start from: the sample page after the
    first page of 15 employees has loaded, the user has moved to page 2,
    and has just clicked next again. *)
Definition on_page_two : World :=
  Admin.run (Admin.load sample_document)
    [ Respond 0 (page_reply (sample_employees 1 7) 15 1);
      Click "nextPage";
      Respond 0 (page_reply (sample_employees 8 7) 15 2);
      Click "nextPage" ].

(** The section a tab stands for; the other three tabs leave the page. *)
Definition section_of (t : Tab) : option string :=
  match t with
  | users => Some "employeesSection"
  | club => Some "clubSection"
  | _ => None
  end.

Definition maps_to_section (t : Tab) : Prop := t = users ∨ t = club.

(** The page shows the section of tab [t] and nothing else: that section
    is painted, the other one is not, and the elements carrying the class
    [nav-active] are exactly the tab [t]. *)
Definition showing (t : Tab) (doc : Document) : Prop :=
  (∀ s, s ∈ ["employeesSection"; "clubSection"] →
        (is_visible s doc = true ↔ section_of t = Some s)) ∧
  (∀ k e, doc !! k = Some e → ("nav-active" ∈ classList e ↔ k = tab_id t)) ∧
  is_active (tab_id t) doc = true.

(** What the scripts take for granted of the template, which is not part
    of the sources: the two tabs and the two sections exist, the two tabs
    carry the class [nav-tab] that [setActiveTab] selects on, and so does
    anything the template marks [nav-active]. *)
Definition template_ok (doc : Document) : Prop :=
  bound "usersTab" doc ∧ bound "clubTab" doc ∧
  bound "employeesSection" doc ∧ bound "clubSection" doc ∧
  map_Forall
    (λ k e, k = "usersTab" ∨ k = "clubTab" ∨ "nav-active" ∈ classList e →
            "nav-tab" ∈ classList e) doc.

(** Two documents that look alike: the same elements, with the same
    classes and inline display. *)
Definition same_look (doc doc' : Document) : Prop :=
  ∀ k, classList <$> doc' !! k = classList <$> doc !! k ∧
       display <$> doc' !! k = display <$> doc !! k.

(** The document after [setActiveTab(tab); showSection(sec)], for the
    hiding and revealing steps of either script. *)
Definition switched (hide reveal : Element → Element) (tab sec : string)
    (doc : Document) : Document :=
  alter reveal sec
    (alter hide "clubSection"
       (alter hide "employeesSection"
          (alter (classList_add "nav-active") tab (deactivate <$> doc)))).

(** The last tab selected, [users] being selected when the page loads. *)
Definition selected (ts : list Tab) : Tab := default users (last ts).

(** ** Runs of the event loop *)




(** A server that keeps to a collection of [n] employees: to the request
    for page [p] it answers with status 200, [total = n], [page = p] and
    the records of that page, at least one unless the collection is
    empty; or the request fails before any body is read.  Replies to the
    club list are not constrained. *)
Definition answers (n : Z) (req : Request) (r : Reply) : bool :=
  match req, r with
  | GetEmployeesPage p _, Answer res =>
      match res_body res with
      | None => true
      | Some data =>
          res_ok res && bool_decide (total data = n)
          && bool_decide (page data = p)
          && match employees data with
             | Some [] => bool_decide (n = 0)
             | Some (_ :: _) => true
             | None => false
             end
      end
  | _, _ => true
  end.

(** Every reply delivered in the run comes from such a server. *)
Fixpoint served (n : Z) (w : World) (evs : list Event) : bool :=
  match evs with
  | [] => true
  | ev :: evs' =>
      match ev with
      | Respond i r =>
          match pending w !! i with
          | Some req => answers n req r
          | None => true
          end
      | Click _ => true
      end && served n (Admin.step w ev) evs'
  end.

(** The page requests issued so far all ask for a page between 1 and
    [last], with the fixed page size. *)
Definition pages_within (last : Z) (reqs : list Request) : Prop :=
  ∀ p s, GetEmployeesPage p s ∈ reqs → 1 ≤ p ≤ last ∧ s = pageSize.

(** The state of a page talking to a server that keeps to a collection of
    [n] employees: nothing loaded yet, or a page of the collection; and
    the requests so far are for pages of the collection. *)
Definition in_step (n : Z) (w : World) : Prop :=
  (totalEmployees w = 0 ∧ currentPage w = 1
   ∨ totalEmployees w = n ∧ 1 ≤ currentPage w ≤ totalPages n) ∧
  pages_within (totalPages n) (requests w) ∧
  pending w `sublist_of` requests w.

(** ** The club form of admin.js *)

(** Requests that change the club collection.  The id of a PUT is the
    text of [editingClubId], [None] standing for [null]. *)
Inductive ClubRequest :=
| PostClub (club_name club_code : string)                  (* [POST /clubs] *)
| PutClub (id : option string) (club_name club_code : string).
                                                    (* [PUT /clubs/{id}] *)

(** A parsed reply body, as far as the handlers look into it: [null], or
    a value with or without a [MESSAGE]. *)
Inductive Json :=
| JsonNull
| JsonValue (MESSAGE : option string).

Inductive WriteReply :=
| WriteRejected                                   (* [fetch] rejects *)
| WriteAnswer (ok : bool) (body : option Json).   (* [None]: not JSON *)

(** The admin page with what the club form adds to it: the text typed in
    the input elements, the [alert] messages shown so far, the module
    variable [editingClubId] and the write requests issued. *)
Record Manager := {
  world : World;
  values : gmap string string;       (* [el.value], by element id *)
  alerts : list string;              (* oldest first *)
  editingClubId : option string;     (* [let editingClubId = null] *)
  writes : list ClubRequest          (* oldest first *)
}.

Definition set_world (w : World) (m : Manager) : Manager :=
  {| world := w; values := values m; alerts := alerts m;
     editingClubId := editingClubId m; writes := writes m |}.

Definition alert (msg : string) (m : Manager) : Manager :=
  {| world := world m; values := values m; alerts := alerts m ++ [msg];
     editingClubId := editingClubId m; writes := writes m |}.

Definition send (req : ClubRequest) (m : Manager) : Manager :=
  {| world := world m; values := values m; alerts := alerts m;
     editingClubId := editingClubId m; writes := writes m ++ [req] |}.

(** How a handler ends: it returns, or a [TypeError] escapes it (a
    property read off [null]). *)
Inductive Completion (A : Type) :=
| Normal (a : A)
| TypeError.
Arguments Normal {A} a.
Arguments TypeError {A}.

(** [el.value] through a reference that may be [null]; an input nobody
    typed into holds the empty string. *)
Definition input_value (id : string) (m : Manager) : option string :=
  match getElementById id (document (world m)) with
  | Some k => Some (default "" (values m !! k))
  | None => None
  end.

Definition is_digit (c : Ascii.ascii) : bool :=
  (48 <=? Ascii.nat_of_ascii c)%nat && (Ascii.nat_of_ascii c <=? 57)%nat.

Fixpoint all_digits (s : string) : bool :=
  match s with
  | EmptyString => true
  | String c s' => is_digit c && all_digits s'
  end.

(** [/^\d{18}$/.test(code)] *)
Definition digits18 (code : string) : bool :=
  (String.length code =? 18)%nat && all_digits code.

(** What is thrown inside a [try] block of these handlers. *)
Inductive Caught := FetchFailed | BodyNotJson | PropertyOfNull.

Section club_form.
(** [String.prototype.trim] is the browser's. *)
Variable trim : string → string.

(** The checks [handleAddClub] and [handleUpdateClub] both start with:
    the trimmed name and code when they pass, the alert otherwise. *)
Definition validated (m : Manager) : Completion (string * string + string) :=
  match input_value "newClubName" m with
  | None => TypeError
  | Some name_text =>
      let name := trim name_text in
      match input_value "newClubCode" m with
      | None => TypeError
      | Some code_text =>
          let code := trim code_text in
          if decide (name = "") then Normal (inr "Enter club name!")
          else if bool_decide (code = "") || negb (digits18 code)
               then Normal (inr "Code must be 18 digits!")
               else Normal (inl (name, code))
      end
  end.

(** [handleAddClub] up to and including its [fetch]. *)
Definition handleAddClub_start (m : Manager) : Completion Manager :=
  match validated m with
  | TypeError => TypeError
  | Normal (inr msg) => Normal (alert msg m)
  | Normal (inl (name, code)) => Normal (send (PostClub name code) m)
  end.

(** [handleUpdateClub] up to and including its [fetch]. *)
Definition handleUpdateClub_start (m : Manager) : Completion Manager :=
  match validated m with
  | TypeError => TypeError
  | Normal (inr msg) => Normal (alert msg m)
  | Normal (inl (name, code)) =>
      Normal (send (PutClub (editingClubId m) name code) m)
  end.
End club_form.

(** [fetchClubs(); if (addClubModal) addClubModal.classList.add("hidden")] *)
Definition refresh_and_close (m : Manager) : Manager :=
  let w := fetchClubs_start (world m) in
  let w := with_document
             (λ doc, update (getElementById "addClubModal" doc)
                       (classList_add "hidden") doc) w in
  set_world w m.

(** The [try] block of [handleAddClub] from the reply on. *)
Definition handleAddClub_try (r : WriteReply) (m : Manager)
    : Caught + Manager :=
  match r with
  | WriteRejected => inl FetchFailed
  | WriteAnswer _ None => inl BodyNotJson
  | WriteAnswer true (Some _) => inr (refresh_and_close m)
  | WriteAnswer false (Some JsonNull) => inl PropertyOfNull
  | WriteAnswer false (Some (JsonValue MESSAGE)) =>
      inr (alert (default "Error adding club." (truthy MESSAGE)) m)
  end.

Definition handleAddClub_resume (r : WriteReply) (m : Manager) : Manager :=
  match handleAddClub_try r m with
  | inr m' => m'
  | inl _ => alert "Server error." m
  end.

(** The [try] block of [handleUpdateClub] from the reply on: the body is
    never read. *)
Definition handleUpdateClub_try (r : WriteReply) (m : Manager)
    : Caught + Manager :=
  match r with
  | WriteRejected => inl FetchFailed
  | WriteAnswer true _ => inr (refresh_and_close m)
  | WriteAnswer false _ => inr (alert "Update failed" m)
  end.

Definition handleUpdateClub_resume (r : WriteReply) (m : Manager) : Manager :=
  match handleUpdateClub_try r m with
  | inr m' => m'
  | inl _ => alert "Server error." m
  end.

(** The club list was asked for again and the form closed, with no alert
    and nothing else moved. *)
Definition refreshed (m m' : Manager) : Prop :=
  alerts m' = alerts m ∧
  issued (world m) (world m') = [GetClubs] ∧
  from_option (has_class "hidden") false
    (document (world m') !! "addClubModal") = true ∧
  currentPage (world m') = currentPage (world m) ∧
  totalEmployees (world m') = totalEmployees (world m).

(** One alert was raised and the page is as it was. *)
Definition alerted (msg : string) (m m' : Manager) : Prop :=
  alerts m' = alerts m ++ [msg] ∧ world m' = world m.

(** The sample page with the club form on it, filled in. *)
Definition sample_form : Manager :=
  {| world :=
       with_document
         (λ doc, <["newClubName" := element []]>
                   (<["newClubCode" := element []]>
                      (<["addClubModal" := element []]> doc)))
         (Admin.load sample_document);
     values := {[ "newClubName" := "Chess";
                  "newClubCode" := "123456789012345678" ]};
     alerts := [];
     editingClubId := Some "4";
     writes := [] |}.

(** ** Cookies *)

(** [s.split(sep)] for a non-empty separator string: scanning from the
    left, each occurrence of [sep] ends a piece and scanning resumes
    after it.  [skip] counts the characters of the occurrence just found
    that are still to be passed over. *)
Fixpoint split_from (sep : string) (skip : nat) (s : string) : list string :=
  match s with
  | EmptyString => [""]
  | String c s' =>
      match skip with
      | S k => split_from sep k s'
      | O =>
          if String.prefix sep s
          then "" :: split_from sep (String.length sep - 1) s'
          else match split_from sep 0 s' with
               | piece :: pieces => String c piece :: pieces
               | [] => [String c ""]
               end
      end
  end.

Definition split (sep s : string) : list string := split_from sep 0 s.

(** [getCookie(name)], with [document.cookie] as an argument. *)
Definition getCookie (cookie name : string) : option string :=
  let value := "; " +:+ cookie in
  let parts := split ("; " +:+ name +:+ "=") value in
  if decide (length parts = 2%nat)
  then head (split ";" (default "" (last parts)))
  else None.


(** The text of [document.cookie] for a jar of name-value pairs. *)
Definition pair_text (kv : string * string) : string :=
  kv.1 +:+ "=" +:+ kv.2.

Fixpoint cookie_text (jar : list (string * string)) : string :=
  match jar with
  | [] => ""
  | [kv] => pair_text kv
  | kv :: jar' => pair_text kv +:+ "; " +:+ cookie_text jar'
  end.

Fixpoint has_char (c : Ascii.ascii) (s : string) : bool :=
  match s with
  | EmptyString => false
  | String c' s' => bool_decide (c' = c) || has_char c s'
  end.

(** Names hold no [=] and no [;], values no [;]: what a browser puts
    in [document.cookie]. *)
Definition pair_ok (kv : string * string) : bool :=
  negb (has_char "="%char kv.1) && negb (has_char ";"%char kv.1)
  && negb (has_char ";"%char kv.2).

(** The text [document.cookie] has after a first pair: each further pair
    preceded by [; ]. *)
Fixpoint tail_text (jar : list (string * string)) : string :=
  match jar with
  | [] => ""
  | kv :: jar' => "; " +:+ pair_text kv +:+ tail_text jar'
  end.

(** ** Arithmetic of the page count *)

(** Closed facts about the sample page are settled by evaluation. *)
Ltac evaluate := vm_compute; first [done | by eexists].

Lemma ceil_div_bounds (n d : Z) :
  0 < d → d * (ceil_div n d - 1) < n ≤ d * ceil_div n d.
Proof.
  intros Hd. unfold ceil_div.
  pose proof (Z.div_mod (- n) d ltac:(lia)) as Hdm.
  pose proof (Z.mod_pos_bound (- n) d Hd) as Hm.
  nia.
Qed.

Lemma ceil_div_least (n d k : Z) : 0 < d → n ≤ d * k → ceil_div n d ≤ k.
Proof.
  intros Hd Hk. pose proof (ceil_div_bounds n d Hd). nia.
Qed.

Lemma ceil_div_nonneg (n d : Z) : 0 < d → 0 ≤ n → 0 ≤ ceil_div n d.
Proof.
  intros Hd Hn. pose proof (ceil_div_bounds n d Hd). nia.
Qed.

Lemma totalPages_max (total : Z) :
  0 ≤ total → totalPages total = Z.max 1 (ceil_div total pageSize).
Proof.
  intros Hn. unfold totalPages, or_one.
  pose proof (ceil_div_nonneg total pageSize ltac:(done) Hn).
  destruct (Z.eqb_spec (ceil_div total pageSize) 0); lia.
Qed.


(** *** Lookups through the DOM updates *)

Lemma getElementById_Some (id k : string) (doc : Document) :
  getElementById id doc = Some k ↔ id = k ∧ bound id doc.
Proof.
  unfold getElementById, bound.
  destruct (doc !! id) as [e|] eqn:He; split.
  - intros [= <-]. eauto.
  - intros [-> _]. done.
  - done.
  - intros [_ [? ?]]. done.
Qed.

Lemma getElementById_bound (id : string) (doc : Document) :
  bound id doc → getElementById id doc = Some id.
Proof. intros H. by apply getElementById_Some. Qed.

Lemma lookup_update (el : option string) (f : Element → Element)
    (doc : Document) (k : string) :
  update el f doc !! k
  = if decide (el = Some k) then f <$> doc !! k else doc !! k.
Proof.
  destruct el as [j|]; simpl.
  - rewrite lookup_alter. repeat case_decide; congruence.
  - try case_decide; done.
Qed.

Lemma update_ref (id : string) (f : Element → Element) (doc0 doc : Document) :
  (bound id doc → bound id doc0) →
  update (getElementById id doc0) f doc = alter f id doc.
Proof.
  intros Hb. unfold getElementById.
  destruct (doc0 !! id) as [e|] eqn:He; simpl; [done|].
  apply map_eq. intros k. rewrite lookup_alter.
  case_decide as Hk; [subst k|done].
  destruct (doc !! id) as [e'|] eqn:He'; [|done].
  destruct Hb as [? Hb]; [by eexists|]. congruence.
Qed.

Lemma bound_alter (id k : string) (f : Element → Element) (doc : Document) :
  bound id (alter f k doc) ↔ bound id doc.
Proof. unfold bound. apply lookup_alter_is_Some. Qed.

Lemma bound_fmap (id : string) (f : Element → Element) (doc : Document) :
  bound id (f <$> doc) ↔ bound id doc.
Proof. unfold bound. rewrite lookup_fmap. apply fmap_is_Some. Qed.

Lemma update_self (id : string) (f : Element → Element) (doc : Document) :
  update (getElementById id doc) f doc = alter f id doc.
Proof. by apply update_ref. Qed.

(** *** [updatePaginationUI] *)

Lemma updatePaginationUI_document (w : World) :
  document (Admin.updatePaginationUI w)
  = alter (set_disabled (currentPage w >=? totalPages (totalEmployees w)))
      "nextPage"
      (alter (set_disabled (currentPage w <=? 1)) "prevPage"
         (alter (set_innerText (pretty (totalPages (totalEmployees w))))
            "totalPageNum"
            (alter (set_innerText (pretty (currentPage w))) "currentPageNum"
               (document w)))).
Proof.
  unfold Admin.updatePaginationUI, nextPageBtn, prevPageBtn,
    totalPageNumDisplay, currentPageNumDisplay.
  cbn [document set_document].
  by rewrite !update_self.
Qed.

Lemma updatePaginationUI_prev (w : World) :
  document (Admin.updatePaginationUI w) !! "prevPage"
  = set_disabled (currentPage w <=? 1) <$> document w !! "prevPage".
Proof.
  rewrite updatePaginationUI_document.
  rewrite lookup_alter_ne by done. rewrite lookup_alter_eq.
  by rewrite !lookup_alter_ne by done.
Qed.

Lemma updatePaginationUI_next (w : World) :
  document (Admin.updatePaginationUI w) !! "nextPage"
  = set_disabled (currentPage w >=? totalPages (totalEmployees w))
      <$> document w !! "nextPage".
Proof.
  rewrite updatePaginationUI_document. rewrite lookup_alter_eq.
  by rewrite !lookup_alter_ne by done.
Qed.

Lemma updatePaginationUI_other (w : World) (k : string) :
  k ≠ "nextPage" → k ≠ "prevPage" → k ≠ "totalPageNum" →
  k ≠ "currentPageNum" →
  document (Admin.updatePaginationUI w) !! k = document w !! k.
Proof.
  intros H1 H2 H3 H4. rewrite updatePaginationUI_document.
  by rewrite !lookup_alter_ne by done.
Qed.

Lemma updatePaginationUI_bound (w : World) (k : string) :
  bound k (document (Admin.updatePaginationUI w)) ↔ bound k (document w).
Proof. rewrite updatePaginationUI_document. by rewrite !bound_alter. Qed.

(** *** [fetchUsers] *)

Section fetchUsers.
Variable w : World.
Hypothesis rows_bound : bound "userRows" (document w).

Lemma fetchUsers_start_bound (p : Z) :
  Admin.fetchUsers_start p w
  = fetch (GetEmployeesPage p pageSize)
      (with_document
         (alter (set_innerHTML (slate_paragraph "Loading users..."))
                "userRows") w).
Proof.
  unfold Admin.fetchUsers_start, userRows.
  by rewrite getElementById_bound.
Qed.

(** The reply could not be read: the promise of [fetch] or of
    [res.json()] rejected, and the [catch] block ran. *)
Lemma fetchUsers_resume_rejected (r : Reply) :
  (r = NetworkError ∨ ∃ ok, r = Answer {| res_ok := ok; res_body := None |}) →
  Admin.fetchUsers_resume r w
  = Ok (with_document
          (alter (set_innerHTML (red_paragraph "Error connecting to server."))
                 "userRows") w).
Proof.
  unfold Admin.fetchUsers_resume, userRows.
  rewrite getElementById_bound by done.
  by intros [->|[ok ->]].
Qed.

(** The [else] branch: a parsed body without records, or a status that
    is not ok. *)
Lemma fetchUsers_resume_empty (ok : bool) (data : Body) :
  ok && nonempty (employees data) = false →
  Admin.fetchUsers_resume (Answer {| res_ok := ok; res_body := Some data |}) w
  = Ok (Admin.updatePaginationUI
          (set_totalEmployees 0
             (with_document
                (alter (set_innerHTML (slate_paragraph "No users found."))
                       "userRows") w))).
Proof.
  intros Hc. unfold Admin.fetchUsers_resume, userRows.
  rewrite getElementById_bound by done.
  unfold Admin.fetchUsers_try. cbn. by rewrite Hc.
Qed.

(** The [if] branch: an ok reply with at least one record. *)
Lemma fetchUsers_resume_records (data : Body) :
  nonempty (employees data) = true →
  Admin.fetchUsers_resume
    (Answer {| res_ok := true; res_body := Some data |}) w
  = Ok (Admin.updatePaginationUI
          (foldl (λ w' emp,
                    with_document
                      (alter (appendChild (userRow emp)) "userRows") w')
                 (set_currentPage (page data)
                    (set_totalEmployees (total data)
                       (with_document
                          (alter (set_innerHTML (Raw "")) "userRows") w)))
                 (default [] (employees data)))).
Proof.
  intros Hc. unfold Admin.fetchUsers_resume, userRows.
  rewrite getElementById_bound by done.
  unfold Admin.fetchUsers_try. cbn. by rewrite Hc.
Qed.
End fetchUsers.

Lemma append_rows_fields (rows : string) (emps : list Employee) (w : World) :
  let w' := foldl (λ w' emp,
                     with_document (alter (appendChild (userRow emp)) rows) w')
                  w emps in
  currentPage w' = currentPage w ∧ totalEmployees w' = totalEmployees w ∧
  requests w' = requests w ∧ pending w' = pending w ∧
  location_href w' = location_href w ∧
  (∀ k, k ≠ rows → document w' !! k = document w !! k) ∧
  document w' !! rows
  = (λ e, foldl (λ e' emp, appendChild (userRow emp) e') e emps)
      <$> document w !! rows.
Proof.
  revert w. induction emps as [|emp emps IH]; intros w; cbn [foldl].
  - repeat split; try done. by destruct (document w !! rows).
  - destruct (IH (with_document (alter (appendChild (userRow emp)) rows) w))
      as (Hc & Ht & Hr & Hp & Hl & Ho & Hd).
    cbn zeta in *. repeat split; try done.
    + intros k Hk. rewrite Ho by done. cbn. by rewrite lookup_alter_ne.
    + rewrite Hd. cbn. rewrite lookup_alter_eq.
      by destruct (document w !! rows).
Qed.

(** *** Clicks *)

Lemma click_bound (id : string) (handler : World → World) (w : World) :
  Admin.listener id = Some handler → bound id (document w) →
  Admin.click id w = handler w.
Proof.
  intros Hl Hb. unfold Admin.click.
  by rewrite getElementById_bound, Hl.
Qed.

Lemma click_cases (id : string) (handler : World → World) (w : World) :
  Admin.listener id = Some handler →
  Admin.click id w = w ∨ Admin.click id w = handler w.
Proof.
  intros Hl. unfold Admin.click. rewrite Hl.
  destruct (getElementById id (document w)); auto.
Qed.

Lemma prevPageBtn_click_first (w : World) :
  currentPage w ≤ 1 → Admin.prevPageBtn_click w = w.
Proof.
  intros H. unfold Admin.prevPageBtn_click.
  destruct (Z.ltb_spec 1 (currentPage w)); [lia|done].
Qed.

Lemma nextPageBtn_click_last (w : World) :
  totalPages_click (totalEmployees w) ≤ currentPage w →
  Admin.nextPageBtn_click w = w.
Proof.
  intros H. unfold Admin.nextPageBtn_click.
  destruct (Z.ltb_spec (currentPage w) (totalPages_click (totalEmployees w)));
    [lia|done].
Qed.

Lemma totalPages_click_le (total : Z) :
  totalPages_click total ≤ totalPages total ∨ totalPages total = 1.
Proof.
  unfold totalPages, totalPages_click, or_one.
  destruct (Z.eqb_spec (ceil_div total pageSize) 0); lia.
Qed.

Lemma nextPageBtn_click_requests (w : World) :
  bound "userRows" (document w) →
  requests (Admin.nextPageBtn_click w)
  = requests w ++
      if currentPage w <? ceil_div (totalEmployees w) pageSize
      then [GetEmployeesPage (currentPage w + 1) pageSize] else [].
Proof.
  intros Hb. unfold Admin.nextPageBtn_click, totalPages_click.
  destruct (currentPage w <? ceil_div (totalEmployees w) pageSize).
  - by rewrite fetchUsers_start_bound.
  - by rewrite app_nil_r.
Qed.

(** ** Pagination *)



(** C3.  [goToPage(-1)] on the first page and [goToPage(+1)] on the last
    page change nothing, so no request is issued; and whenever the
    listing and the next button exist, the request the next-button
    listener issues is decided by the value [totalEmployees] has when the
    listener runs, whatever the document shows. *)
Theorem goToPage_boundaries (w : World) :
  (currentPage w = 1 → Admin.goToPage (-1) w = w) ∧
  (currentPage w = totalPages (totalEmployees w) → Admin.goToPage 1 w = w) ∧
  (bound "nextPage" (document w) → bound "userRows" (document w) →
   ∀ n, requests (Admin.goToPage 1 (set_totalEmployees n w))
        = requests w ++
            if currentPage w <? ceil_div n pageSize
            then [GetEmployeesPage (currentPage w + 1) pageSize] else []).
Proof.
  unfold Admin.goToPage. cbn [Z.eqb Pos.eqb]. repeat split.
  - intros H1.
    destruct (click_cases "prevPage" Admin.prevPageBtn_click w eq_refl)
      as [->| ->]; [done|].
    apply prevPageBtn_click_first. lia.
  - intros Hlast.
    destruct (click_cases "nextPage" Admin.nextPageBtn_click w eq_refl)
      as [->| ->]; [done|].
    apply nextPageBtn_click_last.
    destruct (totalPages_click_le (totalEmployees w)) as [Hle|Hone]; [lia|].
    unfold totalPages, totalPages_click, or_one in *.
    destruct (Z.eqb_spec (ceil_div (totalEmployees w) pageSize) 0); lia.
  - intros Hnext Hrows n.
    rewrite (click_bound "nextPage" Admin.nextPageBtn_click) by done.
    by rewrite nextPageBtn_click_requests.
Qed.

Lemma goToPage_boundaries_witness :
  let w := Admin.load sample_document in
  Admin.goToPage (-1) w = w ∧ Admin.goToPage 1 w = w ∧
  requests (Admin.goToPage 1 (set_totalEmployees 15 w))
  = [GetEmployeesPage 1 7; GetEmployeesPage 2 7].
Proof.
  intros w.
  destruct (goToPage_boundaries w) as (Hprev & Hnext & Hreq).
  split; [apply Hprev; reflexivity|].
  split; [apply Hnext; reflexivity|].
  rewrite Hreq; [reflexivity | by eexists | by eexists].
Defined.

Lemma issued_app (w w' : World) (l : list Request) :
  requests w' = requests w ++ l → issued w w' = l.
Proof. intros H. unfold issued. rewrite H. apply drop_app_length. Qed.

Lemma updatePaginationUI_controls (w : World) :
  controls_match (Admin.updatePaginationUI w).
Proof.
  split; intros e.
  - rewrite updatePaginationUI_prev.
    destruct (document w !! "prevPage"); intros [= <-]; cbn.
    destruct (Z.leb_spec (currentPage w) 1); split; (done || lia).
  - rewrite updatePaginationUI_next.
    destruct (document w !! "nextPage"); intros [= <-]; cbn.
    unfold Z.geb.
    destruct (Z.compare_spec (currentPage w) (totalPages (totalEmployees w)));
      split; (done || lia).
Qed.

(** C10.  With a non-negative total and a current page of at least 1, the
    comparison in the next-button listener (against the ceiling without
    the floor of 1) is the negation of the comparison that disables the
    button (against the ceiling with the floor); and on a page whose
    controls have just been updated, clicking next issues a request
    exactly when the button was left enabled. *)
Theorem next_guard_agrees_with_display (w : World) :
  0 ≤ totalEmployees w → 1 ≤ currentPage w →
  bound "nextPage" (document w) → bound "userRows" (document w) →
  (currentPage w <? totalPages_click (totalEmployees w))
  = negb (currentPage w >=? totalPages (totalEmployees w)) ∧
  let shown := Admin.updatePaginationUI w in
  (issued shown (Admin.click "nextPage" shown) ≠ []
   ↔ is_disabled "nextPage" (document shown) = false) ∧
  (is_disabled "nextPage" (document shown) = false →
   issued shown (Admin.click "nextPage" shown)
   = [GetEmployeesPage (currentPage w + 1) 7]).
Proof.
  intros Htotal Hpage Hnext Hrows.
  assert (Hguard : (currentPage w <? totalPages_click (totalEmployees w))
                   = negb (currentPage w >=? totalPages (totalEmployees w))).
  { rewrite totalPages_max by done. unfold totalPages_click, Z.geb.
    destruct (Z.ltb_spec (currentPage w) (ceil_div (totalEmployees w) pageSize));
      destruct (Z.compare_spec (currentPage w)
                  (Z.max 1 (ceil_div (totalEmployees w) pageSize)));
      (done || lia). }
  split; [done|]. intros shown.
  assert (Hdis : is_disabled "nextPage" (document shown)
                 = (currentPage w >=? totalPages (totalEmployees w))).
  { unfold is_disabled, shown. rewrite updatePaginationUI_next.
    by destruct Hnext as [e ->]. }
  assert (Hiss : issued shown (Admin.click "nextPage" shown)
                 = if currentPage w <? totalPages_click (totalEmployees w)
                   then [GetEmployeesPage (currentPage w + 1) 7] else []).
  { apply issued_app.
    rewrite (click_bound "nextPage" Admin.nextPageBtn_click);
      [|done|by apply updatePaginationUI_bound].
    rewrite nextPageBtn_click_requests by by apply updatePaginationUI_bound.
    done. }
  rewrite Hiss, Hdis, Hguard.
  destruct (currentPage w >=? totalPages (totalEmployees w)); cbn.
  all: split; [split; done|done].
Qed.

Lemma next_guard_agrees_with_display_witness :
  let w := set_totalEmployees 15 (Admin.load sample_document) in
  (currentPage w <? totalPages_click (totalEmployees w))
  = negb (currentPage w >=? totalPages (totalEmployees w)) ∧
  let shown := Admin.updatePaginationUI w in
  (issued shown (Admin.click "nextPage" shown) ≠ []
   ↔ is_disabled "nextPage" (document shown) = false) ∧
  (is_disabled "nextPage" (document shown) = false →
   issued shown (Admin.click "nextPage" shown)
   = [GetEmployeesPage (currentPage w + 1) 7]).
Proof.
  intros w.
  apply (next_guard_agrees_with_display w);
    [evaluate | evaluate | evaluate | evaluate].
Defined.

(** ** Replies to a page request *)

Lemma fetchUsers_resume_total (w : World) (r : Reply) :
  ∃ w', Admin.fetchUsers_resume r w = Ok w' ∧
        requests w' = requests w ∧ pending w' = pending w ∧
        location_href w' = location_href w.
Proof.
  unfold Admin.fetchUsers_resume.
  destruct (userRows (document w)) as [rows|]; [|by eexists].
  destruct r as [|[ok [data|]]]; cbn; try by eexists.
  unfold Admin.fetchUsers_try; cbn.
  destruct (ok && nonempty (employees data)); eexists; (split; [done|]).
  - cbn.
    by destruct (append_rows_fields rows (default [] (employees data))
      (set_currentPage (page data) (set_totalEmployees (total data)
         (with_document (alter (set_innerHTML (Raw "")) rows) w))))
      as (_ & _ & -> & -> & -> & _).
  - done.
Qed.


(** C4.  After [fetchUsers] has processed a reply whose body parsed
    (either branch of its [if]), the prev button is disabled exactly
    when [currentPage <= 1] and the next button exactly when
    [currentPage >= totalPages], for the page state the reply left
    behind. *)
Theorem controls_follow_page_state (w : World) (ok : bool) (data : Body) :
  bound "userRows" (document w) →
  ∃ w', Admin.fetchUsers_resume
          (Answer {| res_ok := ok; res_body := Some data |}) w = Ok w' ∧
        (∀ e, document w' !! "prevPage" = Some e →
              (disabled e = true ↔ currentPage w' ≤ 1)) ∧
        (∀ e, document w' !! "nextPage" = Some e →
              (disabled e = true
               ↔ totalPages (totalEmployees w') ≤ currentPage w')).
Proof.
  intros Hrows.
  destruct (ok && nonempty (employees data)) eqn:Hc.
  - apply andb_true_iff in Hc as [-> Hne].
    rewrite fetchUsers_resume_records by done.
    eexists. split; [done|]. apply updatePaginationUI_controls.
  - rewrite fetchUsers_resume_empty by done.
    eexists. split; [done|]. apply updatePaginationUI_controls.
Qed.

Lemma controls_follow_page_state_witness :
  bound "userRows" (document on_page_two) ∧
  ∃ w', Admin.fetchUsers_resume (page_reply (sample_employees 15 1) 15 3)
          on_page_two = Ok w' ∧
        (∀ e, document w' !! "prevPage" = Some e →
              (disabled e = true ↔ currentPage w' ≤ 1)) ∧
        (∀ e, document w' !! "nextPage" = Some e →
              (disabled e = true
               ↔ totalPages (totalEmployees w') ≤ currentPage w')).
Proof.
  split; [evaluate|].
  apply (controls_follow_page_state on_page_two). evaluate.
Defined.



(** C5 as the specification states it fails: on the page-two world, a
    reply with status 500 and a JSON body is a failed fetch, yet
    [fetchUsers] resets [totalEmployees] from 15 to 0 and shows
    [No users found.] instead of the error paragraph. *)
Lemma http_error_with_json_body_counterexample :
  let r := Answer {| res_ok := false;
                     res_body := Some {| employees := None; clubs := None;
                                         total := 0; page := 0 |} |} in
  bound "userRows" (document on_page_two) ∧
  fetch_failed r ∧
  ¬ failure_handled on_page_two r ∧
  ∃ w', Admin.fetchUsers_resume r on_page_two = Ok w' ∧
        totalEmployees on_page_two = 15 ∧ totalEmployees w' = 0 ∧
        innerHTML <$> document w' !! "userRows"
        = Some (P "text-center text-slate-400 py-4" "No users found.").
Proof.
  intros r. split; [evaluate|]. split; [right; by eexists|]. split.
  - intros (w' & Hw' & _ & Ht & _). vm_compute in Hw'.
    injection Hw' as <-. vm_compute in Ht. discriminate Ht.
  - eexists. split; [vm_compute; reflexivity|]. evaluate.
Qed.

(** C5, amended.  A page fetch that fails in either sense (network
    error, non-success status, or a body that is not JSON) makes
    [fetchUsers] return normally, issues no further request and leaves
    [currentPage] as it was.  When the reply could not be read (the
    [fetch] or the [res.json()] promise rejected), [totalEmployees] is
    unchanged as well and the listing holds the red connectivity-error
    paragraph. *)
Theorem unreadable_reply_keeps_page_state (w : World) (r : Reply) :
  bound "userRows" (document w) →
  fetch_failed r ∨ rejected r →
  ∃ w', Admin.fetchUsers_resume r w = Ok w' ∧
        requests w' = requests w ∧
        pending w' = pending w ∧
        currentPage w' = currentPage w ∧
        (rejected r → failure_handled w r).
Proof.
  intros Hrows Hfail.
  assert (Hrej : rejected r → failure_handled w r).
  { intros Hr. unfold failure_handled.
    rewrite fetchUsers_resume_rejected by done.
    eexists. repeat split; try done.
    cbn. rewrite lookup_alter_eq. by destruct Hrows as [e ->]. }
  destruct (fetchUsers_resume_total w r) as (w' & Hw' & Hreq & Hpend & _).
  exists w'. repeat split; try done.
  destruct r as [|[ok [data|]]].
  - rewrite fetchUsers_resume_rejected in Hw' by (done || by left).
    by injection Hw' as <-.
  - assert (ok = false) as ->.
    { destruct Hfail as [[?|(res & [= <-] & Hok)]|[?|[? ?]]]; done. }
    rewrite fetchUsers_resume_empty in Hw' by done.
    by injection Hw' as <-.
  - rewrite fetchUsers_resume_rejected in Hw' by (done || right; by eexists).
    by injection Hw' as <-.
Qed.

Lemma unreadable_reply_keeps_page_state_witness :
  bound "userRows" (document on_page_two) ∧
  (fetch_failed NetworkError ∨ rejected NetworkError) ∧
  ∃ w', Admin.fetchUsers_resume NetworkError on_page_two = Ok w' ∧
        requests w' = requests on_page_two ∧
        pending w' = pending on_page_two ∧
        currentPage w' = currentPage on_page_two ∧
        (rejected NetworkError → failure_handled on_page_two NetworkError).
Proof.
  split; [evaluate|]. split; [by left; left|].
  apply (unreadable_reply_keeps_page_state on_page_two NetworkError);
    [evaluate | by left; left].
Defined.

(** C2 as the specification states it fails.  The page-two world is
    reached from the sample page by events alone, satisfies the
    invariant, and has the request for page 3 pending.  A reply to it
    with status 200 and no records (the collection shrank to 14) leaves
    [currentPage = 2] with [totalEmployees = 0], so one page in all; a
    reply that reports page 5 of a collection of 3 is stored as it
    comes.  Either way the invariant is broken. *)
Lemma page_invariant_counterexample :
  page_invariant on_page_two ∧
  currentPage on_page_two = 2 ∧
  pending on_page_two = [GetEmployeesPage 3 7] ∧
  (let w' := Admin.step on_page_two (Respond 0 (page_reply [] 14 3)) in
   currentPage w' = 2 ∧ totalPages (totalEmployees w') = 1 ∧
   ¬ page_invariant w') ∧
  (let w' := Admin.step on_page_two
               (Respond 0 (page_reply (sample_employees 1 3) 3 5)) in
   currentPage w' = 5 ∧ totalPages (totalEmployees w') = 1 ∧
   ¬ page_invariant w').
Proof.
  unfold page_invariant. vm_compute.
  repeat split; try done; intros [_ H]; by apply H.
Qed.

(** C2, amended.  After an ok reply that carries at least one record,
    [currentPage] and [totalEmployees] are the page and total the server
    reported, and the invariant [1 <= currentPage <= totalPages] holds
    exactly when the reported page lies within the pages of the reported
    total. *)
Theorem page_invariant_after_records (w : World) (data : Body) :
  bound "userRows" (document w) →
  nonempty (employees data) = true →
  ∃ w', Admin.fetchUsers_resume
          (Answer {| res_ok := true; res_body := Some data |}) w = Ok w' ∧
        currentPage w' = page data ∧
        totalEmployees w' = total data ∧
        (page_invariant w' ↔ 1 ≤ page data ≤ totalPages (total data)).
Proof.
  intros Hrows Hne. rewrite fetchUsers_resume_records by done.
  eexists. split; [done|].
  unfold page_invariant. cbn [Admin.updatePaginationUI currentPage
    totalEmployees set_document].
  destruct (append_rows_fields "userRows" (default [] (employees data))
    (set_currentPage (page data) (set_totalEmployees (total data)
       (with_document (alter (set_innerHTML (Raw "")) "userRows") w))))
    as (-> & -> & _).
  done.
Qed.

Lemma page_invariant_after_records_witness :
  bound "userRows" (document on_page_two) ∧
  nonempty (Some (sample_employees 15 1)) = true ∧
  ∃ w', Admin.fetchUsers_resume (page_reply (sample_employees 15 1) 15 3)
          on_page_two = Ok w' ∧
        currentPage w' = 3 ∧
        totalEmployees w' = 15 ∧
        (page_invariant w' ↔ 1 ≤ 3 ≤ totalPages 15).
Proof.
  split; [evaluate|]. split; [reflexivity|].
  apply (page_invariant_after_records on_page_two
           {| employees := Some (sample_employees 15 1); clubs := None;
              total := 15; page := 3 |});
    [evaluate | reflexivity].
Defined.

(** ** Sections and tabs *)

Lemma setActiveTab_ref (id : string) (doc : Document) :
  setActiveTab (getElementById id doc) doc
  = alter (classList_add "nav-active") id (deactivate <$> doc).
Proof.
  unfold setActiveTab. apply update_ref. intros H. by apply bound_fmap in H.
Qed.

Lemma admin_showSection_ref (id : string) (doc : Document) :
  Admin.showSection (getElementById id doc) doc
  = alter Admin.reveal id
      (alter Admin.hide "clubSection"
         (alter Admin.hide "employeesSection" doc)).
Proof.
  unfold Admin.showSection, employeesSection, clubSection. cbn [foldl].
  rewrite update_self.
  rewrite (update_ref "clubSection") by (intros H; by apply bound_alter in H).
  apply update_ref. intros H. by rewrite !bound_alter in H.
Qed.

Lemma user_showSection_ref (id : string) (doc : Document) :
  User.showSection (getElementById id doc) doc
  = alter (λ s, classList_remove "hidden" (set_display "flex" s)) id
      (alter (set_display "none") "clubSection"
         (alter (set_display "none") "employeesSection" doc)).
Proof.
  unfold User.showSection, employeesSection, clubSection.
  rewrite !update_self.
  apply update_ref. intros H. by rewrite !bound_alter in H.
Qed.

Lemma lookup_alter_at (f : Element → Element) (doc : Document) (i j : string) :
  alter f i doc !! j = if decide (i = j) then f <$> doc !! j else doc !! j.
Proof. rewrite lookup_alter. by case_decide; subst. Qed.

Lemma elem_classList_add (c c' : string) (e : Element) :
  c ∈ classList (classList_add c' e) ↔ c = c' ∨ c ∈ classList e.
Proof. cbn. rewrite elem_of_union, elem_of_singleton. tauto. Qed.

Lemma elem_classList_remove (c c' : string) (e : Element) :
  c ∈ classList (classList_remove c' e) ↔ c ≠ c' ∧ c ∈ classList e.
Proof. cbn. rewrite elem_of_difference, elem_of_singleton. tauto. Qed.

Lemma deactivate_classes (e : Element) (c : string) :
  c ≠ "nav-active" → c ∈ classList (deactivate e) ↔ c ∈ classList e.
Proof.
  intros Hc. unfold deactivate.
  destruct (has_class "nav-tab" e); [|done].
  rewrite elem_classList_remove. tauto.
Qed.

Lemma deactivate_active (e : Element) :
  "nav-active" ∈ classList (deactivate e) ↔
  "nav-active" ∈ classList e ∧ "nav-tab" ∉ classList e.
Proof.
  unfold deactivate, has_class. case_bool_decide.
  - rewrite elem_classList_remove. tauto.
  - tauto.
Qed.

(** Both scripts' hiding and revealing steps fit [switched]. *)

Lemma admin_hide_display (e : Element) : display (Admin.hide e) = "none".
Proof. done. Qed.

Lemma admin_reveal_display (e : Element) : display (Admin.reveal e) = "flex".
Proof. done. Qed.

Lemma admin_hide_classes (e : Element) (c : string) :
  c ≠ "hidden" → c ∈ classList (Admin.hide e) ↔ c ∈ classList e.
Proof.
  intros Hc. unfold Admin.hide. cbn [set_display classList].
  rewrite elem_classList_add. tauto.
Qed.

Lemma admin_reveal_classes (e : Element) (c : string) :
  c ≠ "hidden" → c ∈ classList (Admin.reveal e) ↔ c ∈ classList e.
Proof.
  intros Hc. unfold Admin.reveal. cbn [set_display classList].
  rewrite elem_classList_remove. tauto.
Qed.

Lemma user_reveal_classes (e : Element) (c : string) :
  c ≠ "hidden" →
  c ∈ classList (classList_remove "hidden" (set_display "flex" e))
  ↔ c ∈ classList e.
Proof. intros Hc. rewrite elem_classList_remove. cbn. tauto. Qed.

(** *** Looks *)

Lemma same_look_refl (doc : Document) : same_look doc doc.
Proof. by intros k. Qed.

Lemma same_look_trans (d1 d2 d3 : Document) :
  same_look d1 d2 → same_look d2 d3 → same_look d1 d3.
Proof.
  intros H12 H23 k. destruct (H12 k) as [<- <-]. apply H23.
Qed.

Lemma same_look_alter (f : Element → Element) (k : string) (doc : Document) :
  (∀ e, classList (f e) = classList e ∧ display (f e) = display e) →
  same_look doc (alter f k doc).
Proof.
  intros Hf j. rewrite lookup_alter_at.
  case_decide; [|done].
  destruct (doc !! j) as [e|]; [|done]. cbn.
  by destruct (Hf e) as [-> ->].
Qed.

Lemma same_look_lookup (doc doc' : Document) (k : string) (e' : Element) :
  same_look doc doc' → doc' !! k = Some e' →
  ∃ e, doc !! k = Some e ∧ classList e' = classList e ∧
       display e' = display e.
Proof.
  intros Hl He'. destruct (Hl k) as [Hc Hd]. rewrite He' in Hc, Hd.
  destruct (doc !! k) as [e|]; [|done].
  exists e. cbn in *. split; [done|]. split; congruence.
Qed.

Lemma same_look_bound (doc doc' : Document) (k : string) :
  same_look doc doc' → bound k doc → bound k doc'.
Proof.
  intros Hl [e He]. destruct (Hl k) as [Hc _]. rewrite He in Hc.
  unfold bound. destruct (doc' !! k); [by eexists|done].
Qed.

Lemma same_look_visible (doc doc' : Document) (k : string) :
  same_look doc doc' → is_visible k doc' = is_visible k doc.
Proof.
  intros Hl. destruct (Hl k) as [Hc Hd]. unfold is_visible.
  destruct (doc' !! k) as [e'|], (doc !! k) as [e|]; try done.
  cbn in *. injection Hc as Hc. injection Hd as Hd.
  unfold visible, has_class. by rewrite Hc, Hd.
Qed.

Lemma same_look_active (doc doc' : Document) (k : string) :
  same_look doc doc' → is_active k doc' = is_active k doc.
Proof.
  intros Hl. destruct (Hl k) as [Hc _]. unfold is_active.
  destruct (doc' !! k) as [e'|], (doc !! k) as [e|]; try done.
  cbn in *. injection Hc as Hc. unfold has_class. by rewrite Hc.
Qed.

Lemma same_look_showing (t : Tab) (doc doc' : Document) :
  same_look doc doc' → showing t doc → showing t doc'.
Proof.
  intros Hl (Hvis & Hact & Htab). split; [|split].
  - intros s Hs. rewrite (same_look_visible doc doc') by done. by apply Hvis.
  - intros k e' He'.
    destruct (same_look_lookup doc doc' k e' Hl He') as (e & He & -> & _).
    by apply Hact.
  - by rewrite (same_look_active doc doc').
Qed.

Lemma same_look_template (doc doc' : Document) :
  same_look doc doc' → template_ok doc → template_ok doc'.
Proof.
  intros Hl (H1 & H2 & H3 & H4 & Hm).
  repeat split; try by eapply same_look_bound.
  intros k e' He'.
  destruct (same_look_lookup doc doc' k e' Hl He') as (e & He & -> & _).
  by apply (Hm k e).
Qed.

Section switched.
Variables hide reveal : Element → Element.
Hypothesis hide_display : ∀ e, display (hide e) = "none".
Hypothesis reveal_display : ∀ e, display (reveal e) = "flex".
Hypothesis hide_classes :
  ∀ e c, c ≠ "hidden" → c ∈ classList (hide e) ↔ c ∈ classList e.
Hypothesis reveal_classes :
  ∀ e c, c ≠ "hidden" → c ∈ classList (reveal e) ↔ c ∈ classList e.

Variables tab sec : string.
Variable doc : Document.

Local Abbreviation doc' := (switched hide reveal tab sec doc).

(** Each element of the switched document comes from the element of
    the same id, through the steps that apply to that id. *)
Lemma switched_lookup (k : string) :
  doc' !! k
  = (λ e0,
       let e1 := deactivate e0 in
       let e2 := if decide (tab = k) then classList_add "nav-active" e1
                 else e1 in
       let e3 := if decide ("employeesSection" = k) then hide e2 else e2 in
       let e4 := if decide ("clubSection" = k) then hide e3 else e3 in
       if decide (sec = k) then reveal e4 else e4) <$> doc !! k.
Proof.
  unfold switched.
  rewrite !lookup_alter_at, lookup_fmap.
  destruct (doc !! k) as [e0|]; cbn; repeat destruct (decide _); done.
Qed.

Lemma switched_bound (k : string) : bound k doc' ↔ bound k doc.
Proof. unfold bound. rewrite switched_lookup. apply fmap_is_Some. Qed.

(** Classes other than [hidden] and [nav-active] are left alone. *)
Lemma switched_classes (k : string) (e : Element) (c : string) :
  c ≠ "hidden" → c ≠ "nav-active" → doc' !! k = Some e →
  ∃ e0, doc !! k = Some e0 ∧ (c ∈ classList e ↔ c ∈ classList e0).
Proof.
  intros Hh Ha. rewrite switched_lookup.
  destruct (doc !! k) as [e0|]; [|done]. cbn. intros [= <-].
  exists e0. split; [done|].
  repeat case_decide;
    rewrite ?reveal_classes, ?hide_classes, ?elem_classList_add,
      ?deactivate_classes by done;
    tauto.
Qed.

(** Exactly the tab carries [nav-active], provided whatever carried it
    before is of class [nav-tab]. *)
Lemma switched_active (k : string) (e : Element) :
  (∀ e0, doc !! k = Some e0 → "nav-active" ∈ classList e0 →
         "nav-tab" ∈ classList e0) →
  doc' !! k = Some e →
  "nav-active" ∈ classList e ↔ k = tab.
Proof.
  intros Hmark. rewrite switched_lookup.
  destruct (doc !! k) as [e0|]; [|done]. cbn. intros [= <-].
  specialize (Hmark e0 eq_refl).
  repeat case_decide;
    rewrite ?reveal_classes, ?hide_classes, ?elem_classList_add,
      ?deactivate_active by done;
    intuition congruence.
Qed.

Lemma switched_display (k : string) (e : Element) :
  k = "employeesSection" ∨ k = "clubSection" →
  doc' !! k = Some e →
  display e = if decide (sec = k) then "flex" else "none".
Proof.
  intros Hk. rewrite switched_lookup.
  destruct (doc !! k) as [e0|]; [|done]. cbn. intros [= <-].
  destruct Hk as [-> | ->]; repeat case_decide; try done;
    by rewrite ?reveal_display, ?hide_display.
Qed.

(** After [setActiveTab(tab); showSection(sec)] for a tab that maps to
    a section, the page shows that section and that tab only, and still
    fits the template. *)
Lemma switched_showing (t : Tab) :
  maps_to_section t → tab = tab_id t → section_of t = Some sec →
  template_ok doc → showing t doc' ∧ template_ok doc'.
Proof.
  intros Ht Htab Hsec (Hu & Hc & Hes & Hcs & Hm).
  assert (Hactive : ∀ k e, doc' !! k = Some e →
                           "nav-active" ∈ classList e ↔ k = tab).
  { intros k e. apply switched_active. intros e0 He0 Ha.
    apply (Hm k e0 He0). auto. }
  assert (Hbound : bound tab doc').
  { apply switched_bound. rewrite Htab. by destruct Ht as [-> | ->]. }
  split; [split; [|split]|].
  - intros s Hs.
    assert (Hk : s = "employeesSection" ∨ s = "clubSection").
    { rewrite !elem_of_cons in Hs.
      destruct Hs as [?|[?|Hs]]; auto. by apply elem_of_nil in Hs. }
    assert (Hb : bound s doc').
    { apply switched_bound. by destruct Hk as [-> | ->]. }
    destruct Hb as [e He]. unfold is_visible. rewrite He. cbn.
    unfold visible. rewrite (switched_display s e Hk He).
    rewrite Hsec. destruct (decide (sec = s)) as [Heq|Heq].
    + by rewrite Heq.
    + split; [done|]. by intros [= ?].
  - rewrite <- Htab. done.
  - rewrite <- Htab. destruct Hbound as [e He].
    unfold is_active. rewrite He. cbn.
    apply bool_decide_eq_true. by apply (Hactive _ e He).
  - repeat split; try by apply switched_bound.
    intros k e He Hk.
    destruct (switched_classes k e "nav-tab") as (e0 & He0 & ->);
      [done..|].
    apply (Hm k e0 He0).
    destruct Hk as [?|[?|Hk]]; [auto..|].
    apply (Hactive k e He) in Hk. rewrite Hk, Htab.
    destruct Ht as [-> | ->]; auto.
Qed.
End switched.

(** *** The tab listeners *)

Lemma admin_fetchUsers_start_look (p : Z) (w : World) :
  same_look (document w) (document (Admin.fetchUsers_start p w)).
Proof.
  unfold Admin.fetchUsers_start.
  destruct (userRows (document w)) as [rows|]; [|apply same_look_refl].
  by apply same_look_alter.
Qed.

Lemma user_fetchUsers_start_look (w : World) :
  same_look (document w) (document (User.fetchUsers_start w)).
Proof.
  unfold User.fetchUsers_start.
  destruct (userRows (document w)) as [rows|]; [|apply same_look_refl].
  by apply same_look_alter.
Qed.

Lemma fetchClubs_start_look (w : World) :
  same_look (document w) (document (fetchClubs_start w)).
Proof.
  unfold fetchClubs_start.
  destruct (clubCards (document w)) as [cards|]; [|apply same_look_refl].
  by apply same_look_alter.
Qed.

Lemma admin_usersTab_click_look (w : World) :
  same_look
    (switched Admin.hide Admin.reveal "usersTab" "employeesSection"
       (document w))
    (document (Admin.usersTab_click w)).
Proof.
  unfold Admin.usersTab_click, usersTab, employeesSection.
  eapply same_look_trans; [|apply admin_fetchUsers_start_look].
  cbn [document with_document set_document set_currentPage].
  rewrite setActiveTab_ref, admin_showSection_ref.
  apply same_look_refl.
Qed.

Lemma admin_clubTab_click_look (w : World) :
  same_look
    (switched Admin.hide Admin.reveal "clubTab" "clubSection" (document w))
    (document (Admin.clubTab_click w)).
Proof.
  unfold Admin.clubTab_click, clubTab, clubSection.
  eapply same_look_trans; [|apply fetchClubs_start_look].
  cbn [document with_document set_document].
  rewrite setActiveTab_ref, admin_showSection_ref.
  apply same_look_refl.
Qed.

Lemma user_usersTab_click_look (w : World) :
  same_look
    (switched (set_display "none")
       (λ s, classList_remove "hidden" (set_display "flex" s))
       "usersTab" "employeesSection" (document w))
    (document (User.usersTab_click w)).
Proof.
  unfold User.usersTab_click, usersTab, employeesSection.
  eapply same_look_trans; [|apply user_fetchUsers_start_look].
  cbn [document with_document set_document].
  rewrite setActiveTab_ref, user_showSection_ref.
  apply same_look_refl.
Qed.

Lemma user_clubTab_click_look (w : World) :
  same_look
    (switched (set_display "none")
       (λ s, classList_remove "hidden" (set_display "flex" s))
       "clubTab" "clubSection" (document w))
    (document (User.clubTab_click w)).
Proof.
  unfold User.clubTab_click, clubTab, clubSection.
  eapply same_look_trans; [|apply fetchClubs_start_look].
  cbn [document with_document set_document].
  rewrite setActiveTab_ref, user_showSection_ref.
  apply same_look_refl.
Qed.

Lemma user_click_bound (id : string) (handler : World → World) (w : World) :
  User.listener id = Some handler → bound id (document w) →
  User.click id w = handler w.
Proof.
  intros Hl Hb. unfold User.click.
  by rewrite getElementById_bound, Hl.
Qed.

Lemma admin_selectTab_showing (t : Tab) (w : World) :
  maps_to_section t → template_ok (document w) →
  showing t (document (Admin.selectTab t w)) ∧
  template_ok (document (Admin.selectTab t w)).
Proof.
  intros Ht Hok. pose proof Hok as (Hu & Hc & _).
  unfold Admin.selectTab. destruct Ht as [-> | ->].
  - rewrite (click_bound "usersTab" Admin.usersTab_click) by done.
    destruct (switched_showing Admin.hide Admin.reveal admin_hide_display
                admin_reveal_display admin_hide_classes admin_reveal_classes
                "usersTab" "employeesSection" (document w) users)
      as [Hs Ht]; [by left|done..|].
    split; [eapply same_look_showing|eapply same_look_template];
      eauto using admin_usersTab_click_look.
  - rewrite (click_bound "clubTab" Admin.clubTab_click) by done.
    destruct (switched_showing Admin.hide Admin.reveal admin_hide_display
                admin_reveal_display admin_hide_classes admin_reveal_classes
                "clubTab" "clubSection" (document w) club)
      as [Hs Ht]; [by right|done..|].
    split; [eapply same_look_showing|eapply same_look_template];
      eauto using admin_clubTab_click_look.
Qed.

Lemma user_selectTab_showing (t : Tab) (w : World) :
  maps_to_section t → template_ok (document w) →
  showing t (document (User.selectTab t w)) ∧
  template_ok (document (User.selectTab t w)).
Proof.
  intros Ht Hok. pose proof Hok as (Hu & Hc & _).
  unfold User.selectTab. destruct Ht as [-> | ->].
  - rewrite (user_click_bound "usersTab" User.usersTab_click) by done.
    destruct (switched_showing (set_display "none")
                (λ s, classList_remove "hidden" (set_display "flex" s))
                (λ e, eq_refl) (λ e, eq_refl) (λ e c _, reflexivity _)
                user_reveal_classes
                "usersTab" "employeesSection" (document w) users)
      as [Hs Ht]; [by left|done..|].
    split; [eapply same_look_showing|eapply same_look_template];
      eauto using user_usersTab_click_look.
  - rewrite (user_click_bound "clubTab" User.clubTab_click) by done.
    destruct (switched_showing (set_display "none")
                (λ s, classList_remove "hidden" (set_display "flex" s))
                (λ e, eq_refl) (λ e, eq_refl) (λ e c _, reflexivity _)
                user_reveal_classes
                "clubTab" "clubSection" (document w) club)
      as [Hs Ht]; [by right|done..|].
    split; [eapply same_look_showing|eapply same_look_template];
      eauto using user_clubTab_click_look.
Qed.

Lemma admin_selectTabs_showing (ts : list Tab) (t0 : Tab) (w : World) :
  Forall maps_to_section ts → template_ok (document w) →
  showing t0 (document w) →
  showing (default t0 (last ts)) (document (Admin.selectTabs ts w)).
Proof.
  intros Hts. revert t0 w.
  induction Hts as [|t ts Ht Hts IH]; intros t0 w Hok Hshow; [done|].
  destruct (admin_selectTab_showing t w Ht Hok) as [Hs' Hok'].
  specialize (IH t _ Hok' Hs').
  replace (default t0 (last (t :: ts))) with (default t (last ts))
    by (rewrite last_cons; by destruct (last ts)).
  exact IH.
Qed.

Lemma user_selectTabs_showing (ts : list Tab) (t0 : Tab) (w : World) :
  Forall maps_to_section ts → template_ok (document w) →
  showing t0 (document w) →
  showing (default t0 (last ts)) (document (User.selectTabs ts w)).
Proof.
  intros Hts. revert t0 w.
  induction Hts as [|t ts Ht Hts IH]; intros t0 w Hok Hshow; [done|].
  destruct (user_selectTab_showing t w Ht Hok) as [Hs' Hok'].
  specialize (IH t _ Hok' Hs').
  replace (default t0 (last (t :: ts))) with (default t (last ts))
    by (rewrite last_cons; by destruct (last ts)).
  exact IH.
Qed.

Lemma admin_load_showing (doc : Document) :
  template_ok doc →
  showing users (document (Admin.load doc)) ∧
  template_ok (document (Admin.load doc)).
Proof.
  intros Hok. pose proof Hok as (Hu & _).
  set (w0 := {| document := doc; currentPage := 1; totalEmployees := 0;
                location_href := "/"; requests := []; pending := [] |}).
  assert (Href : usersTab (document w0) = Some "usersTab")
    by by apply getElementById_bound.
  replace (Admin.load doc) with (Admin.selectTab users w0).
  { by apply admin_selectTab_showing; [left|]. }
  unfold Admin.selectTab.
  rewrite (click_bound "usersTab" Admin.usersTab_click) by done.
  change (Admin.load doc)
    with (match usersTab (document w0) with
          | Some _ => Admin.usersTab_click w0
          | None => w0
          end).
  by rewrite Href.
Qed.

Lemma user_load_showing (doc : Document) :
  template_ok doc →
  showing users (document (User.load doc)) ∧
  template_ok (document (User.load doc)).
Proof.
  intros Hok. pose proof Hok as (Hu & _).
  set (w0 := {| document := doc; currentPage := 1; totalEmployees := 0;
                location_href := "/"; requests := []; pending := [] |}).
  assert (Href : usersTab (document w0) = Some "usersTab")
    by by apply getElementById_bound.
  replace (User.load doc) with (User.selectTab users w0).
  { by apply user_selectTab_showing; [left|]. }
  unfold User.selectTab.
  rewrite (user_click_bound "usersTab" User.usersTab_click) by done.
  change (User.load doc)
    with (match usersTab (document w0) with
          | Some _ => User.usersTab_click w0
          | None => w0
          end).
  by rewrite Href.
Qed.

Lemma showing_one_section (t : Tab) (doc : Document) :
  maps_to_section t → showing t doc →
  xorb (is_visible "employeesSection" doc) (is_visible "clubSection" doc)
  = true.
Proof.
  intros Ht (Hvis & _).
  pose proof (Hvis "employeesSection") as He.
  pose proof (Hvis "clubSection") as Hc.
  rewrite !elem_of_cons in He, Hc.
  specialize (He (or_introl eq_refl)).
  specialize (Hc (or_intror (or_introl eq_refl))).
  destruct Ht as [-> | ->]; cbn in He, Hc;
    destruct (is_visible "employeesSection" doc),
      (is_visible "clubSection" doc); cbn; try done;
    intuition congruence.
Qed.

Lemma admin_usersTab_click_state (w : World) :
  bound "userRows" (document w) →
  currentPage (Admin.usersTab_click w) = 1 ∧
  totalEmployees (Admin.usersTab_click w) = totalEmployees w ∧
  requests (Admin.usersTab_click w)
  = requests w ++ [GetEmployeesPage 1 pageSize].
Proof.
  intros Hrows. unfold Admin.usersTab_click. cbn zeta.
  rewrite fetchUsers_start_bound; [done|].
  cbn [document with_document set_document set_currentPage].
  unfold usersTab, employeesSection.
  rewrite setActiveTab_ref, admin_showSection_ref.
  by rewrite !bound_alter, bound_fmap.
Qed.

Lemma fetchClubs_start_bound (w : World) :
  bound "clubCards" (document w) →
  fetchClubs_start w
  = fetch GetClubs
      (with_document
         (alter (set_innerHTML (slate_paragraph "Loading clubs..."))
                "clubCards") w).
Proof.
  intros Hb. unfold fetchClubs_start, clubCards.
  by rewrite getElementById_bound.
Qed.

Lemma admin_clubTab_click_state (w : World) :
  bound "clubCards" (document w) →
  currentPage (Admin.clubTab_click w) = currentPage w ∧
  totalEmployees (Admin.clubTab_click w) = totalEmployees w ∧
  requests (Admin.clubTab_click w) = requests w ++ [GetClubs].
Proof.
  intros Hcards. unfold Admin.clubTab_click. cbn zeta.
  rewrite fetchClubs_start_bound; [done|].
  cbn [document with_document set_document].
  unfold clubTab, clubSection.
  rewrite setActiveTab_ref, admin_showSection_ref.
  by rewrite !bound_alter, bound_fmap.
Qed.

(** C6.  On a page with its tabs, sections and list containers in place,
    selecting [users] marks the users tab active, shows the employees
    section, sets [currentPage] to 1 and issues the request for page 1;
    selecting [club] marks the club tab active, shows the club section
    and issues exactly one request, for the unpaged club list. *)
Theorem selectTab_users_and_club (w : World) :
  template_ok (document w) →
  bound "userRows" (document w) → bound "clubCards" (document w) →
  (let w' := Admin.selectTab users w in
   showing users (document w') ∧
   currentPage w' = 1 ∧
   issued w w' = [GetEmployeesPage 1 7]) ∧
  (let w' := Admin.selectTab club w in
   showing club (document w') ∧
   issued w w' = [GetClubs] ∧
   currentPage w' = currentPage w ∧ totalEmployees w' = totalEmployees w).
Proof.
  intros Hok Hrows Hcards. pose proof Hok as (Hu & Hc & _). split.
  - destruct (admin_selectTab_showing users w) as [Hshow _];
      [by left|done|].
    split; [done|]. unfold Admin.selectTab in *. cbn [tab_id] in *.
    rewrite (click_bound "usersTab" Admin.usersTab_click) by done.
    destruct (admin_usersTab_click_state w Hrows) as (Hp & _ & Hr).
    split; [done|]. by apply issued_app.
  - destruct (admin_selectTab_showing club w) as [Hshow _];
      [by right|done|].
    split; [done|]. unfold Admin.selectTab in *. cbn [tab_id] in *.
    rewrite (click_bound "clubTab" Admin.clubTab_click) by done.
    destruct (admin_clubTab_click_state w Hcards) as (Hp & Ht & Hr).
    split; [by apply issued_app|done].
Qed.

Lemma selectTab_users_and_club_witness :
  template_ok (document on_page_two) ∧
  bound "userRows" (document on_page_two) ∧
  bound "clubCards" (document on_page_two) ∧
  (let w' := Admin.selectTab users on_page_two in
   showing users (document w') ∧
   currentPage w' = 1 ∧
   issued on_page_two w' = [GetEmployeesPage 1 7]) ∧
  (let w' := Admin.selectTab club on_page_two in
   showing club (document w') ∧
   issued on_page_two w' = [GetClubs] ∧
   currentPage w' = currentPage on_page_two ∧
   totalEmployees w' = totalEmployees on_page_two).
Proof.
  assert (Hok : template_ok (document on_page_two)).
  { repeat split; try evaluate.
    refine (bool_decide_unpack _ _). vm_compute. exact I. }
  split; [exact Hok|]. split; [evaluate|]. split; [evaluate|].
  apply (selectTab_users_and_club on_page_two); [exact Hok|evaluate..].
Defined.

(** C7.  From the page as loaded, after any sequence of selections of
    the [users] and [club] tabs, in admin.js and in user.js alike: the
    section of the tab selected last ([users] if none was) is painted and
    the other section is not, so exactly one of the two is visible; and
    the elements marked [nav-active] are exactly that one tab. *)
Theorem one_section_and_one_tab (doc : Document) (ts : list Tab) :
  template_ok doc → Forall maps_to_section ts →
  (let shown := document (Admin.selectTabs ts (Admin.load doc)) in
   showing (selected ts) shown ∧
   xorb (is_visible "employeesSection" shown) (is_visible "clubSection" shown)
   = true) ∧
  (let shown := document (User.selectTabs ts (User.load doc)) in
   showing (selected ts) shown ∧
   xorb (is_visible "employeesSection" shown) (is_visible "clubSection" shown)
   = true).
Proof.
  intros Hok Hts.
  assert (Hsel : maps_to_section (selected ts)).
  { unfold selected. destruct (last ts) as [t|] eqn:Hlast; [|by left].
    apply last_Some_elem_of in Hlast.
    apply (proj1 (Forall_forall _ _) Hts t Hlast). }
  split; cbn zeta.
  - destruct (admin_load_showing doc Hok) as [Hshow Hok'].
    pose proof (admin_selectTabs_showing ts users _ Hts Hok' Hshow) as H.
    split; [done|]. by apply (showing_one_section (selected ts)).
  - destruct (user_load_showing doc Hok) as [Hshow Hok'].
    pose proof (user_selectTabs_showing ts users _ Hts Hok' Hshow) as H.
    split; [done|]. by apply (showing_one_section (selected ts)).
Qed.

Lemma one_section_and_one_tab_witness :
  template_ok sample_document ∧
  Forall maps_to_section [club; users; club] ∧
  (let shown := document (Admin.selectTabs [club; users; club]
                            (Admin.load sample_document)) in
   showing club shown ∧
   xorb (is_visible "employeesSection" shown) (is_visible "clubSection" shown)
   = true) ∧
  (let shown := document (User.selectTabs [club; users; club]
                            (User.load sample_document)) in
   showing club shown ∧
   xorb (is_visible "employeesSection" shown) (is_visible "clubSection" shown)
   = true).
Proof.
  assert (Hok : template_ok sample_document).
  { repeat split; try evaluate.
    refine (bool_decide_unpack _ _). vm_compute. exact I. }
  assert (Hts : Forall maps_to_section [club; users; club]).
  { constructor; [by right|]. constructor; [by left|].
    constructor; [by right|]. constructor. }
  split; [exact Hok|]. split; [exact Hts|].
  exact (one_section_and_one_tab sample_document [club; users; club] Hok Hts).
Defined.

(** C8.  Selecting one of the tabs [attendance], [scan] or [logout]
    changes nothing but [window.location.href], which it sets to the
    fixed path of that tab: the document (and with it the active tab and
    the visible section), [currentPage], [totalEmployees] and the
    requests are as before.  The same holds in user.js. *)
Theorem navigation_tabs_only_navigate (w : World) (t : Tab) :
  t = attendance ∨ t = scan ∨ t = logout →
  bound (tab_id t) (document w) →
  let path := match t with
              | attendance => "/attendance"
              | scan => "/scan"
              | _ => "/logout"
              end in
  Admin.selectTab t w = set_location_href path w ∧
  User.selectTab t w = set_location_href path w ∧
  let w' := Admin.selectTab t w in
  document w' = document w ∧
  currentPage w' = currentPage w ∧ totalEmployees w' = totalEmployees w ∧
  requests w' = requests w ∧ pending w' = pending w ∧
  location_href w' = path.
Proof.
  intros Ht Hb. cbn zeta.
  assert (Ha : Admin.selectTab t w
               = set_location_href
                   match t with
                   | attendance => "/attendance"
                   | scan => "/scan"
                   | _ => "/logout"
                   end w).
  { unfold Admin.selectTab.
    destruct Ht as [-> | [-> | ->]]; cbn [tab_id] in *.
    - by rewrite (click_bound "attendanceTab" attendanceTab_click).
    - by rewrite (click_bound "scanTab" scanTab_click).
    - by rewrite (click_bound "logoutTab" logoutTab_click). }
  split; [done|]. split.
  - unfold User.selectTab.
    destruct Ht as [-> | [-> | ->]]; cbn [tab_id] in *.
    + by rewrite (user_click_bound "attendanceTab" attendanceTab_click).
    + by rewrite (user_click_bound "scanTab" scanTab_click).
    + by rewrite (user_click_bound "logoutTab" logoutTab_click).
  - by rewrite Ha.
Qed.

Lemma navigation_tabs_only_navigate_witness :
  (logout = attendance ∨ logout = scan ∨ logout = logout) ∧
  bound (tab_id logout) (document on_page_two) ∧
  Admin.selectTab logout on_page_two
  = set_location_href "/logout" on_page_two ∧
  User.selectTab logout on_page_two
  = set_location_href "/logout" on_page_two ∧
  let w' := Admin.selectTab logout on_page_two in
  document w' = document on_page_two ∧
  currentPage w' = currentPage on_page_two ∧
  totalEmployees w' = totalEmployees on_page_two ∧
  requests w' = requests on_page_two ∧ pending w' = pending on_page_two ∧
  location_href w' = "/logout".
Proof.
  split; [by right; right|]. split; [evaluate|].
  apply (navigation_tabs_only_navigate on_page_two logout);
    [by right; right|evaluate].
Defined.

(** ** The scenarios of the specification, run on the sample page *)

(** No employees: one page, both buttons disabled, [No users found.] *)
Example scenario_empty_collection :
  let w := Admin.run (Admin.load sample_document)
             [Respond 0 (page_reply [] 0 1)] in
  totalPages (totalEmployees w) = 1 ∧
  is_disabled "prevPage" (document w) = true ∧
  is_disabled "nextPage" (document w) = true ∧
  innerHTML <$> document w !! "userRows"
  = Some (P "text-center text-slate-400 py-4" "No users found.").
Proof. by vm_compute. Qed.

(** Fifteen employees, page 1: three pages; next issues the request for
    page 2, and once the server answers with page 2 both buttons are
    enabled. *)
Example scenario_fifteen_employees :
  let w1 := Admin.run (Admin.load sample_document)
              [Respond 0 (page_reply (sample_employees 1 7) 15 1)] in
  let w2 := Admin.goToPage 1 w1 in
  let w3 := Admin.step w2 (Respond 0 (page_reply (sample_employees 8 7) 15 2)) in
  totalPages (totalEmployees w1) = 3 ∧
  issued w1 w2 = [GetEmployeesPage 2 7] ∧
  currentPage w3 = 2 ∧
  is_disabled "prevPage" (document w3) = false ∧
  is_disabled "nextPage" (document w3) = false ∧
  length <$> (children <$> document w3 !! "userRows") = Some 7%nat.
Proof. by vm_compute. Qed.

(** Page 3 of 3: next is disabled and clicking it issues nothing. *)
Example scenario_last_page :
  let w := Admin.step on_page_two
             (Respond 0 (page_reply (sample_employees 15 1) 15 3)) in
  currentPage w = 3 ∧ totalPages (totalEmployees w) = 3 ∧
  is_disabled "nextPage" (document w) = true ∧
  issued w (Admin.goToPage 1 w) = [].
Proof. by vm_compute. Qed.

(** Selecting [club] while the employees are showing. *)
Example scenario_select_club :
  let w := Admin.load sample_document in
  let w' := Admin.selectTab club w in
  is_visible "employeesSection" (document w) = true ∧
  is_visible "employeesSection" (document w') = false ∧
  is_visible "clubSection" (document w') = true ∧
  issued w w' = [GetClubs].
Proof. by vm_compute. Qed.

(** ** Runs of the admin page *)

Lemma updatePaginationUI_look (w : World) :
  same_look (document w) (document (Admin.updatePaginationUI w)).
Proof.
  rewrite updatePaginationUI_document.
  repeat (eapply same_look_trans; [|by apply same_look_alter]).
  apply same_look_refl.
Qed.

Lemma append_rows_look (rows : string) (emps : list Employee) (w : World) :
  same_look (document w)
    (document (foldl (λ w' emp,
                        with_document (alter (appendChild (userRow emp)) rows)
                          w') w emps)).
Proof.
  revert w. induction emps as [|emp emps IH]; intros w; cbn [foldl].
  - apply same_look_refl.
  - eapply same_look_trans; [|apply IH]. by apply same_look_alter.
Qed.

Lemma admin_fetchUsers_resume_look (r : Reply) (w : World) :
  ∃ w', Admin.fetchUsers_resume r w = Ok w' ∧
        same_look (document w) (document w').
Proof.
  unfold Admin.fetchUsers_resume.
  destruct (userRows (document w)) as [rows|];
    [|eexists; split; [done|apply same_look_refl]].
  destruct r as [|[ok [data|]]]; cbn;
    try (eexists; split; [done|by apply same_look_alter]).
  unfold Admin.fetchUsers_try; cbn.
  destruct (ok && nonempty (employees data)); eexists; (split; [done|]).
  - eapply same_look_trans; [|apply updatePaginationUI_look].
    eapply same_look_trans; [|apply append_rows_look].
    by apply same_look_alter.
  - eapply same_look_trans; [|apply updatePaginationUI_look].
    by apply same_look_alter.
Qed.

Lemma append_cards_fields (cards : string) (cs : list Club) (w : World) :
  let w' := foldl (λ w' c,
                     with_document (alter (appendChild (ClubCard c)) cards) w')
                  w cs in
  currentPage w' = currentPage w ∧ totalEmployees w' = totalEmployees w ∧
  requests w' = requests w ∧ pending w' = pending w ∧
  location_href w' = location_href w ∧
  (∀ k, k ≠ cards → document w' !! k = document w !! k) ∧
  document w' !! cards
  = (λ e, foldl (λ e' c, appendChild (ClubCard c) e') e cs)
      <$> document w !! cards.
Proof.
  revert w. induction cs as [|c cs IH]; intros w; cbn [foldl].
  - repeat split; try done. by destruct (document w !! cards).
  - destruct (IH (with_document (alter (appendChild (ClubCard c)) cards) w))
      as (Hc & Ht & Hr & Hp & Hl & Ho & Hd).
    cbn zeta in *. repeat split; try done.
    + intros k Hk. rewrite Ho by done. cbn. by rewrite lookup_alter_ne.
    + rewrite Hd. cbn. rewrite lookup_alter_eq.
      by destruct (document w !! cards).
Qed.

Lemma append_cards_look (cards : string) (cs : list Club) (w : World) :
  same_look (document w)
    (document (foldl (λ w' c,
                        with_document (alter (appendChild (ClubCard c)) cards)
                          w') w cs)).
Proof.
  revert w. induction cs as [|c cs IH]; intros w; cbn [foldl].
  - apply same_look_refl.
  - eapply same_look_trans; [|apply IH]. by apply same_look_alter.
Qed.

Lemma fetchClubs_resume_total (r : Reply) (w : World) :
  ∃ w', fetchClubs_resume r w = Ok w' ∧
        currentPage w' = currentPage w ∧
        totalEmployees w' = totalEmployees w ∧
        requests w' = requests w ∧ pending w' = pending w ∧
        location_href w' = location_href w ∧
        same_look (document w) (document w').
Proof.
  unfold fetchClubs_resume.
  destruct (clubCards (document w)) as [cards|];
    [|eexists; do 6 (split; [done|]); apply same_look_refl].
  destruct r as [|[ok [data|]]]; cbn;
    try (eexists; do 6 (split; [done|]); by apply same_look_alter).
  unfold fetchClubs_try; cbn.
  destruct (ok && nonempty (clubs data)); eexists; (split; [done|]).
  - destruct (append_cards_fields cards (default [] (clubs data))
      (with_document (alter (set_innerHTML (Raw "")) cards) w))
      as (-> & -> & -> & -> & -> & _).
    do 5 (split; [done|]).
    eapply same_look_trans; [|apply append_cards_look].
    by apply same_look_alter.
  - do 5 (split; [done|]). by apply same_look_alter.
Qed.

Lemma listener_cases (id : string) (h : World → World) :
  Admin.listener id = Some h →
  id = "usersTab" ∧ h = Admin.usersTab_click ∨
  id = "clubTab" ∧ h = Admin.clubTab_click ∨
  id = "attendanceTab" ∧ h = attendanceTab_click ∨
  id = "scanTab" ∧ h = scanTab_click ∨
  id = "logoutTab" ∧ h = logoutTab_click ∨
  id = "prevPage" ∧ h = Admin.prevPageBtn_click ∨
  id = "nextPage" ∧ h = Admin.nextPageBtn_click.
Proof.
  unfold Admin.listener. repeat case_decide; intros [= <-]; subst; tauto.
Qed.

Lemma click_handlers (id : string) (w : World) :
  Admin.click id w = w ∨
  bound id (document w) ∧
  ∃ h, Admin.listener id = Some h ∧ Admin.click id w = h w.
Proof.
  unfold Admin.click.
  destruct (getElementById id (document w)) as [k|] eqn:Hk; [|by left].
  apply getElementById_Some in Hk as [_ Hb].
  destruct (Admin.listener id) as [h|]; [|by left].
  right. split; [done|]. by exists h.
Qed.


Lemma continuation_total (req : Request) (r : Reply) (w : World) :
  ∃ w', Admin.continuation req r w = Ok w' ∧
        requests w' = requests w ∧ pending w' = pending w ∧
        location_href w' = location_href w ∧
        same_look (document w) (document w').
Proof.
  destruct req as [p s| |]; cbn.
  - destruct (fetchUsers_resume_total w r) as (w' & Hw' & ? & ? & ?).
    destruct (admin_fetchUsers_resume_look r w) as (w'' & Hw'' & ?).
    exists w'. rewrite Hw' in Hw''. injection Hw'' as <-. done.
  - exists w. do 4 (split; [done|]). apply same_look_refl.
  - destruct (fetchClubs_resume_total r w) as (w' & ? & _ & _ & ? & ? & ? & ?).
    by exists w'.
Qed.






(** *** Requests *)

Lemma fetchUsers_start_effect (p : Z) (w : World) :
  ∃ l, (l = [] ∨ l = [GetEmployeesPage p pageSize]) ∧
       requests (Admin.fetchUsers_start p w) = requests w ++ l ∧
       pending (Admin.fetchUsers_start p w) = pending w ++ l ∧
       currentPage (Admin.fetchUsers_start p w) = currentPage w ∧
       totalEmployees (Admin.fetchUsers_start p w) = totalEmployees w.
Proof.
  unfold Admin.fetchUsers_start.
  destruct (userRows (document w)) as [rows|].
  - exists [GetEmployeesPage p pageSize]. by repeat split; [right|..].
  - exists []. rewrite !app_nil_r. by repeat split; [left|..].
Qed.

Lemma fetchClubs_start_effect (w : World) :
  ∃ l, (l = [] ∨ l = [GetClubs]) ∧
       requests (fetchClubs_start w) = requests w ++ l ∧
       pending (fetchClubs_start w) = pending w ++ l ∧
       currentPage (fetchClubs_start w) = currentPage w ∧
       totalEmployees (fetchClubs_start w) = totalEmployees w.
Proof.
  unfold fetchClubs_start.
  destruct (clubCards (document w)) as [cards|].
  - exists [GetClubs]. by repeat split; [right|..].
  - exists []. rewrite !app_nil_r. by repeat split; [left|..].
Qed.






(** *** A server that keeps to its collection *)

Lemma totalPages_pos (n : Z) : 0 ≤ n → 1 ≤ totalPages n.
Proof. intros Hn. rewrite totalPages_max by done. lia. Qed.

Lemma totalPages_click_bound (n : Z) :
  0 ≤ n → totalPages_click n ≤ totalPages n.
Proof.
  intros Hn. rewrite totalPages_max by done. unfold totalPages_click. lia.
Qed.

(** What a reply can do to the page state. *)
Lemma fetchUsers_resume_state (r : Reply) (w : World) :
  ∃ w', Admin.fetchUsers_resume r w = Ok w' ∧
        (currentPage w' = currentPage w ∧ totalEmployees w' = totalEmployees w
         ∨ ∃ ok data, r = Answer {| res_ok := ok; res_body := Some data |} ∧
             if ok && nonempty (employees data)
             then currentPage w' = page data ∧ totalEmployees w' = total data
             else currentPage w' = currentPage w ∧ totalEmployees w' = 0).
Proof.
  unfold Admin.fetchUsers_resume.
  destruct (userRows (document w)) as [rows|]; [|eexists; split; [done|by left]].
  destruct r as [|[ok [data|]]]; cbn; try (eexists; split; [done|by left]).
  unfold Admin.fetchUsers_try; cbn.
  destruct (ok && nonempty (employees data)) eqn:Hc;
    eexists; (split; [done|]); right; exists ok, data; rewrite Hc;
    (split; [done|]).
  - cbn.
    by destruct (append_rows_fields rows (default [] (employees data))
      (set_currentPage (page data) (set_totalEmployees (total data)
         (with_document (alter (set_innerHTML (Raw "")) rows) w))))
      as (-> & -> & _).
  - done.
Qed.

Section steady_server.
Variable n : Z.
Hypothesis n_nonneg : 0 ≤ n.

Local Abbreviation in_step := (in_step n).

Lemma in_step_fetchUsers_start (p : Z) (w : World) :
  in_step w → 1 ≤ p ≤ totalPages n → in_step (Admin.fetchUsers_start p w).
Proof.
  intros (Hst & Hreq & Hsub) Hp.
  destruct (fetchUsers_start_effect p w) as (l & Hl & Hr & Hpe & Hc & Ht).
  unfold in_step. rewrite Hr, Hpe, Hc, Ht.
  split; [done|]. split; [|by apply sublist_app].
  intros q s Hin. apply elem_of_app in Hin as [Hin|Hin]; [by apply Hreq|].
  destruct Hl as [-> | ->]; [by apply elem_of_nil in Hin|].
  apply list_elem_of_singleton in Hin as [= -> ->]. done.
Qed.

Lemma in_step_click (id : string) (w : World) :
  in_step w → in_step (Admin.click id w).
Proof.
  intros Hin. pose proof Hin as (Hst & Hreq & Hsub).
  pose proof (totalPages_pos n n_nonneg) as Hpos.
  destruct (click_handlers id w) as [-> | (_ & h & Hl & ->)]; [done|].
  apply listener_cases in Hl
    as [[_ ->]|[[_ ->]|[[_ ->]|[[_ ->]|[[_ ->]|[[_ ->]|[_ ->]]]]]]];
    try done.
  - unfold Admin.usersTab_click. cbn zeta.
    apply in_step_fetchUsers_start; [|cbn; lia].
    split; [|done]. cbn. destruct Hst as [[-> _]|[-> _]]; [left|right]; lia.
  - unfold Admin.clubTab_click. cbn zeta.
    match goal with
    | |- context [fetchClubs_start ?w1] =>
        destruct (fetchClubs_start_effect w1) as (l & Hl & Hr & Hpe & Hc & Ht)
    end.
    unfold in_step. rewrite Hr, Hpe, Hc, Ht. cbn.
    split; [done|]. split; [|by apply sublist_app].
    intros q s Hq. apply elem_of_app in Hq as [Hq|Hq]; [by apply Hreq|].
    destruct Hl as [-> | ->]; [by apply elem_of_nil in Hq|].
    by apply list_elem_of_singleton in Hq.
  - unfold Admin.prevPageBtn_click.
    destruct (Z.ltb_spec 1 (currentPage w)); [|done].
    apply in_step_fetchUsers_start; [done|].
    destruct Hst as [[_ ?]|[_ ?]]; lia.
  - unfold Admin.nextPageBtn_click.
    destruct (Z.ltb_spec (currentPage w) (totalPages_click (totalEmployees w)))
      as [Hlt|Hge]; [|done].
    apply in_step_fetchUsers_start; [done|].
    destruct Hst as [[Ht ?]|[Ht ?]]; rewrite Ht in *.
    + change (totalPages_click 0) with 0 in Hlt. lia.
    + pose proof (totalPages_click_bound n n_nonneg). lia.
Qed.

Lemma in_step_respond (i : nat) (r : Reply) (w : World) :
  in_step w →
  (∀ req, pending w !! i = Some req → answers n req r = true) →
  in_step (Admin.step w (Respond i r)).
Proof.
  intros (Hst & Hreq & Hsub) Hans. cbn [Admin.step].
  destruct (pending w !! i) as [req|] eqn:Hi; [|done].
  specialize (Hans req eq_refl).
  assert (Hsub' : delete i (pending w) `sublist_of` requests w)
    by (etrans; [apply sublist_delete|done]).
  set (w1 := {| document := document w; currentPage := currentPage w;
                totalEmployees := totalEmployees w;
                location_href := location_href w; requests := requests w;
                pending := delete i (pending w) |}).
  destruct (continuation_total req r w1) as (w' & Hw' & Hr & Hp & _).
  rewrite Hw'. unfold in_step. rewrite Hr, Hp.
  split; [|done].
  destruct req as [p s| |]; cbn in Hw'.
  - assert (Hp_range : 1 ≤ p ≤ totalPages n).
    { apply (Hreq p s). apply (elem_of_sublist (pending w)); [|done].
      by apply (list_elem_of_lookup_2 _ i). }
    destruct (fetchUsers_resume_state r w1) as (w'' & Hw'' & Hcase).
    rewrite Hw' in Hw''. injection Hw'' as <-.
    destruct Hcase as [[-> ->]|(ok & data & -> & Hcase)]; [done|].
    cbn in Hans. destruct ok; [|done]. cbn in Hans, Hcase.
    apply andb_true_iff in Hans as [Hans Hemps].
    apply andb_true_iff in Hans as [Htot Hpage].
    apply bool_decide_eq_true in Htot. apply bool_decide_eq_true in Hpage.
    destruct (employees data) as [[|emp emps]|]; cbn in Hcase; [| |done].
    + apply bool_decide_eq_true in Hemps. destruct Hcase as [-> ->].
      cbn. left. split; [done|].
      destruct Hst as [[_ ?]|[_ Hcp]]; [done|].
      rewrite Hemps in Hcp. change (totalPages 0) with 1 in Hcp. lia.
    + destruct Hcase as [-> ->]. right. by rewrite Htot, Hpage.
  - injection Hw' as <-. done.
  - destruct (fetchClubs_resume_total r w1)
      as (w'' & Hw'' & Hc & Ht & _).
    rewrite Hw' in Hw''. injection Hw'' as <-. by rewrite Hc, Ht.
Qed.

Lemma in_step_run (evs : list Event) (w : World) :
  in_step w → served n w evs = true → in_step (Admin.run w evs).
Proof.
  revert w. induction evs as [|ev evs IH]; intros w Hin Hs; [done|].
  cbn [served] in Hs. apply andb_true_iff in Hs as [Hev Hs].
  unfold Admin.run. cbn [foldl]. apply IH; [|done].
  destruct ev as [id|i r]; [by apply in_step_click|].
  apply in_step_respond; [done|]. intros req Hreq. by rewrite Hreq in Hev.
Qed.

Lemma in_step_load (doc : Document) : in_step (Admin.load doc).
Proof.
  pose proof (totalPages_pos n n_nonneg) as Hpos.
  unfold Admin.load, Admin.initial_setup.
  assert (Hinit : ∀ d, in_step {| document := d; currentPage := 1;
                                   totalEmployees := 0; location_href := "/";
                                   requests := []; pending := [] |}).
  { intros d. split; [by left|]. split; [|done].
    intros p s Hin. by apply elem_of_nil in Hin. }
  destruct (usersTab _); cbn zeta; [|done].
  apply in_step_fetchUsers_start; [|cbn; lia].
  cbn. apply Hinit.
Qed.
End steady_server.

(** X3.  Against a server that keeps to a collection of [n] employees
    (each reply to a page request either fails before a body is read, or
    is an ok reply for the page asked, with [total = n] and at least one
    record unless [n = 0]), every state the admin page can reach, under
    any interleaving of clicks and replies, satisfies
    [1 <= currentPage <= totalPages], and every page request it issues
    asks for a page between 1 and the page count of [n], with page size
    7. *)
Theorem page_invariant_with_steady_server
    (n : Z) (doc : Document) (evs : list Event) :
  0 ≤ n → served n (Admin.load doc) evs = true →
  let w := Admin.run (Admin.load doc) evs in
  page_invariant w ∧
  (totalEmployees w = 0 ∨ totalEmployees w = n) ∧
  pages_within (totalPages n) (requests w).
Proof.
  intros Hn Hs w.
  destruct (in_step_run n Hn evs (Admin.load doc) (in_step_load n Hn doc) Hs)
    as (Hst & Hreq & _).
  fold w in Hst, Hreq. split; [|split; [|done]].
  - unfold page_invariant.
    destruct Hst as [[-> ->]|[-> ?]]; [by vm_compute|done].
  - destruct Hst as [[? _]|[? _]]; auto.
Qed.

Lemma page_invariant_with_steady_server_witness :
  let evs := [ Respond 0 (page_reply (sample_employees 1 7) 15 1);
               Click "nextPage"; Click "nextPage";
               Respond 1 (page_reply (sample_employees 8 7) 15 2);
               Respond 0 NetworkError;
               Click "nextPage";
               Respond 0 (page_reply (sample_employees 15 1) 15 3);
               Click "nextPage"; Click "usersTab" ] in
  0 ≤ 15 ∧ served 15 (Admin.load sample_document) evs = true ∧
  let w := Admin.run (Admin.load sample_document) evs in
  page_invariant w ∧
  (totalEmployees w = 0 ∨ totalEmployees w = 15) ∧
  pages_within (totalPages 15) (requests w).
Proof.
  intros evs. split; [lia|]. split; [by vm_compute|].
  apply (page_invariant_with_steady_server 15 sample_document evs);
    [lia|by vm_compute].
Defined.

(** *** What the listing shows *)

Lemma append_rows_children (emps : list Employee) (e : Element) :
  let e' := foldl (λ e' emp, appendChild (userRow emp) e') e emps in
  children e' = children e ++ (userRow <$> emps) ∧
  innerHTML e' = innerHTML e.
Proof.
  revert e. induction emps as [|emp emps IH]; intros e; cbn [foldl].
  - by rewrite app_nil_r.
  - destruct (IH (appendChild (userRow emp) e)) as [-> ->].
    cbn. by rewrite <- app_assoc.
Qed.


Lemma user_fetchUsers_resume_records (w : World) (data : Body) :
  bound "userRows" (document w) → nonempty (employees data) = true →
  User.fetchUsers_resume (Answer {| res_ok := true; res_body := Some data |}) w
  = Ok (foldl (λ w' emp,
                 with_document (alter (appendChild (userRow emp)) "userRows")
                   w')
              (with_document (alter (set_innerHTML (Raw "")) "userRows") w)
              (default [] (employees data))).
Proof.
  intros Hb Hc. unfold User.fetchUsers_resume, userRows.
  rewrite getElementById_bound by done.
  unfold User.fetchUsers_try. cbn. by rewrite Hc.
Qed.

(** X4.  After an ok reply with records, in admin.js and in user.js, the
    listing holds exactly one row per record of that reply, in the order
    of the reply: whatever was listed or shown before (rows of an earlier
    page, a placeholder) is gone, nothing accumulates. *)
Theorem listing_is_the_last_reply
    (w : World) (data : Body) (emps : list Employee) :
  bound "userRows" (document w) →
  employees data = Some emps → emps ≠ [] →
  let r := Answer {| res_ok := true; res_body := Some data |} in
  (∃ w', Admin.fetchUsers_resume r w = Ok w' ∧
         children <$> document w' !! "userRows" = Some (userRow <$> emps) ∧
         innerHTML <$> document w' !! "userRows" = Some (Raw "")) ∧
  (∃ w', User.fetchUsers_resume r w = Ok w' ∧
         children <$> document w' !! "userRows" = Some (userRow <$> emps) ∧
         innerHTML <$> document w' !! "userRows" = Some (Raw "")).
Proof.
  intros Hb Hemps Hne r.
  assert (Hc : nonempty (employees data) = true).
  { rewrite Hemps. by destruct emps. }
  destruct Hb as [e He]. split.
  - unfold r. rewrite fetchUsers_resume_records by (done || by eexists).
    eexists. split; [done|].
    rewrite updatePaginationUI_other by done.
    match goal with
    | |- context [foldl ?f ?w0 ?l] =>
        destruct (append_rows_fields "userRows" l w0) as (_&_&_&_&_&_& ->)
    end.
    cbn. rewrite lookup_alter_eq, He, Hemps. cbn.
    by destruct (append_rows_children emps (set_innerHTML (Raw "") e))
      as [-> ->].
  - unfold r. rewrite user_fetchUsers_resume_records by (done || by eexists).
    eexists. split; [done|].
    match goal with
    | |- context [foldl ?f ?w0 ?l] =>
        destruct (append_rows_fields "userRows" l w0) as (_&_&_&_&_&_& ->)
    end.
    cbn. rewrite lookup_alter_eq, He, Hemps. cbn.
    by destruct (append_rows_children emps (set_innerHTML (Raw "") e))
      as [-> ->].
Qed.

Lemma listing_is_the_last_reply_witness :
  let data := {| employees := Some (sample_employees 8 7); clubs := None;
                 total := 15; page := 2 |} in
  let w := Admin.run (Admin.load sample_document)
             [Respond 0 (page_reply (sample_employees 1 7) 15 1)] in
  bound "userRows" (document w) ∧
  employees data = Some (sample_employees 8 7) ∧
  sample_employees 8 7 ≠ [] ∧
  let r := Answer {| res_ok := true; res_body := Some data |} in
  (∃ w', Admin.fetchUsers_resume r w = Ok w' ∧
         children <$> document w' !! "userRows"
         = Some (userRow <$> sample_employees 8 7) ∧
         innerHTML <$> document w' !! "userRows" = Some (Raw "")) ∧
  (∃ w', User.fetchUsers_resume r w = Ok w' ∧
         children <$> document w' !! "userRows"
         = Some (userRow <$> sample_employees 8 7) ∧
         innerHTML <$> document w' !! "userRows" = Some (Raw "")).
Proof.
  intros data w.
  split; [evaluate|]. split; [reflexivity|]. split; [by vm_compute|].
  apply (listing_is_the_last_reply w data (sample_employees 8 7));
    [evaluate|reflexivity|by vm_compute].
Defined.

(** *** The pagination buttons *)

Lemma prevPageBtn_click_requests (w : World) :
  bound "userRows" (document w) →
  requests (Admin.prevPageBtn_click w)
  = requests w ++
      if 1 <? currentPage w
      then [GetEmployeesPage (currentPage w - 1) pageSize] else [].
Proof.
  intros Hb. unfold Admin.prevPageBtn_click.
  destruct (1 <? currentPage w).
  - by rewrite fetchUsers_start_bound.
  - by rewrite app_nil_r.
Qed.

Lemma updatePaginationUI_prevPage (w : World) :
  bound "prevPage" (document w) →
  is_disabled "prevPage" (document (Admin.updatePaginationUI w))
  = (currentPage w <=? 1).
Proof.
  intros [e He]. unfold is_disabled.
  by rewrite updatePaginationUI_prev, He.
Qed.

(** X5.  For any page state whatever, once the controls have been
    updated, a click on prev issues the request for [currentPage - 1]
    when the button was left enabled and nothing when it was left
    disabled: the guard of the listener and the disabled flag never
    disagree. *)
Theorem prev_guard_agrees_with_display (w : World) :
  bound "prevPage" (document w) → bound "userRows" (document w) →
  let shown := Admin.updatePaginationUI w in
  is_disabled "prevPage" (document shown) = (currentPage w <=? 1) ∧
  issued shown (Admin.click "prevPage" shown)
  = if is_disabled "prevPage" (document shown) then []
    else [GetEmployeesPage (currentPage w - 1) 7].
Proof.
  intros Hprev Hrows shown. unfold shown.
  rewrite updatePaginationUI_prevPage by done. split; [done|].
  apply issued_app.
  rewrite (click_bound "prevPage" Admin.prevPageBtn_click);
    [|done|by apply updatePaginationUI_bound].
  rewrite prevPageBtn_click_requests by by apply updatePaginationUI_bound.
  cbn [currentPage Admin.updatePaginationUI set_document].
  by destruct (Z.ltb_spec 1 (currentPage w)), (Z.leb_spec (currentPage w) 1);
    try lia.
Qed.

Lemma prev_guard_agrees_with_display_witness :
  bound "prevPage" (document on_page_two) ∧
  bound "userRows" (document on_page_two) ∧
  let shown := Admin.updatePaginationUI on_page_two in
  is_disabled "prevPage" (document shown) = (currentPage on_page_two <=? 1) ∧
  issued shown (Admin.click "prevPage" shown)
  = if is_disabled "prevPage" (document shown) then []
    else [GetEmployeesPage (currentPage on_page_two - 1) 7].
Proof.
  split; [evaluate|]. split; [evaluate|].
  apply (prev_guard_agrees_with_display on_page_two); evaluate.
Defined.

Lemma fetchUsers_start_unbound (p : Z) (w : World) :
  ¬ bound "userRows" (document w) → Admin.fetchUsers_start p w = w.
Proof.
  intros Hn. unfold Admin.fetchUsers_start, userRows, getElementById.
  destruct (document w !! "userRows") eqn:He; [|done].
  destruct Hn. by eexists.
Qed.

Lemma fetchUsers_start_again (p q : Z) (w : World) :
  issued (Admin.fetchUsers_start q w)
    (Admin.fetchUsers_start p (Admin.fetchUsers_start q w))
  = issued w (Admin.fetchUsers_start p w).
Proof.
  destruct (decide (bound "userRows" (document w))) as [Hb|Hn].
  - assert (Hb' : bound "userRows" (document (Admin.fetchUsers_start q w))).
    { rewrite fetchUsers_start_bound by done. cbn. by apply bound_alter. }
    rewrite (fetchUsers_start_bound _ Hb' p).
    rewrite (fetchUsers_start_bound _ Hb p).
    unfold issued. cbn. by rewrite !drop_app_length.
  - by rewrite !(fetchUsers_start_unbound _ w) by done.
Qed.

Lemma click_unbound (id : string) (w : World) :
  ¬ bound id (document w) → Admin.click id w = w.
Proof.
  intros Hn. destruct (click_handlers id w) as [?|[? _]]; done.
Qed.

(** X6.  A click on prev or next only asks: it leaves [currentPage] and
    [totalEmployees] as they were (they change when a reply is applied),
    so a second click on the same button before any reply arrives issues
    the very same request again. *)
Theorem pagination_clicks_only_ask (w : World) (id : string) :
  id = "prevPage" ∨ id = "nextPage" →
  let w1 := Admin.click id w in
  currentPage w1 = currentPage w ∧
  totalEmployees w1 = totalEmployees w ∧
  issued w1 (Admin.click id w1) = issued w w1.
Proof.
  intros Hid w1.
  assert (Hstart : ∀ p, currentPage (Admin.fetchUsers_start p w) = currentPage w
                        ∧ totalEmployees (Admin.fetchUsers_start p w)
                          = totalEmployees w).
  { intros p. by destruct (fetchUsers_start_effect p w) as (_ & _ & _ & _ & ?). }
  assert (Hkeep : currentPage w1 = currentPage w ∧
                  totalEmployees w1 = totalEmployees w).
  { unfold w1.
    destruct (click_handlers id w) as [-> | (_ & h & Hl & ->)]; [done|].
    destruct Hid as [-> | ->]; injection Hl as <-.
    - unfold Admin.prevPageBtn_click. by destruct (1 <? currentPage w).
    - unfold Admin.nextPageBtn_click. by destruct (currentPage w <? _). }
  destruct Hkeep as [Hc Ht]. split; [done|]. split; [done|].
  unfold w1 in *.
  destruct (decide (bound id (document w))) as [Hb|Hn];
    [|by rewrite !(click_unbound id w)].
  assert (Hlook : ∀ p w0, bound id (document w0) →
                          bound id (document (Admin.fetchUsers_start p w0))).
  { intros p w0 Hw0.
    eapply same_look_bound; [apply admin_fetchUsers_start_look|done]. }
  destruct Hid as [-> | ->].
  - rewrite (click_bound "prevPage" Admin.prevPageBtn_click w) in * by done.
    remember (Admin.prevPageBtn_click w) as x eqn:Hx.
    rewrite (click_bound "prevPage" Admin.prevPageBtn_click x);
      [|done|].
    2: { subst x. unfold Admin.prevPageBtn_click.
         destruct (1 <? currentPage w); auto. }
    unfold Admin.prevPageBtn_click. rewrite Hc. subst x.
    unfold Admin.prevPageBtn_click.
    destruct (1 <? currentPage w); [apply fetchUsers_start_again|done].
  - rewrite (click_bound "nextPage" Admin.nextPageBtn_click w) in * by done.
    remember (Admin.nextPageBtn_click w) as x eqn:Hx.
    rewrite (click_bound "nextPage" Admin.nextPageBtn_click x);
      [|done|].
    2: { subst x. unfold Admin.nextPageBtn_click.
         destruct (currentPage w <? _); auto. }
    unfold Admin.nextPageBtn_click. rewrite Hc, Ht. subst x.
    unfold Admin.nextPageBtn_click.
    destruct (currentPage w <? _); [apply fetchUsers_start_again|done].
Qed.

Lemma pagination_clicks_only_ask_witness :
  ("nextPage" = "prevPage" ∨ "nextPage" = "nextPage") ∧
  let w := Admin.run (Admin.load sample_document)
             [Respond 0 (page_reply (sample_employees 1 7) 15 1)] in
  let w1 := Admin.click "nextPage" w in
  currentPage w1 = currentPage w ∧
  totalEmployees w1 = totalEmployees w ∧
  issued w1 (Admin.click "nextPage" w1) = issued w w1.
Proof.
  split; [by right|]. intros w.
  apply (pagination_clicks_only_ask w "nextPage"). by right.
Defined.

(** *** user.js against admin.js *)

Lemma append_rows_other (rows : string) (emps : list Employee) (w : World)
    (k : string) :
  k ≠ rows →
  document (foldl (λ w' emp,
                     with_document (alter (appendChild (userRow emp)) rows) w')
                  w emps) !! k
  = document w !! k.
Proof.
  intros Hk.
  destruct (append_rows_fields rows emps w) as (_&_&_&_&_& Ho &_). by apply Ho.
Qed.

Lemma user_fetchUsers_resume_frame (r : Reply) (w : World) :
  ∃ wu, User.fetchUsers_resume r w = Ok wu ∧
        (∀ k, k ≠ "userRows" → document wu !! k = document w !! k) ∧
        currentPage wu = currentPage w ∧
        totalEmployees wu = totalEmployees w ∧
        requests wu = requests w ∧ pending wu = pending w.
Proof.
  unfold User.fetchUsers_resume.
  destruct (userRows (document w)) as [rows|] eqn:Hrows; [|by exists w].
  apply getElementById_Some in Hrows as [<- _].
  assert (Halter : ∀ f, ∀ k, k ≠ "userRows" →
            document (with_document (alter f "userRows") w) !! k
            = document w !! k).
  { intros f k Hk. cbn. by rewrite lookup_alter_ne. }
  destruct r as [|[ok [data|]]]; cbn;
    try (eexists; split; [done|]; split; [by apply Halter|done]).
  unfold User.fetchUsers_try; cbn.
  destruct (ok && nonempty (employees data));
    [|eexists; split; [done|]; split; [by apply Halter|done]].
  eexists. split; [done|].
  match goal with
  | |- context [foldl ?f ?w0 ?l] =>
      destruct (append_rows_fields "userRows" l w0)
        as (-> & -> & -> & -> & _ & Ho & _)
  end.
  split; [|done]. intros k Hk. rewrite Ho by done. by apply Halter.
Qed.

Lemma admin_fetchUsers_resume_frame (r : Reply) (w : World) (k : string) :
  k ≠ "userRows" → k ≠ "nextPage" → k ≠ "prevPage" →
  k ≠ "totalPageNum" → k ≠ "currentPageNum" →
  ∃ wa, Admin.fetchUsers_resume r w = Ok wa ∧
        document wa !! k = document w !! k.
Proof.
  intros H1 H2 H3 H4 H5. unfold Admin.fetchUsers_resume.
  destruct (userRows (document w)) as [rows|] eqn:Hrows; [|by exists w].
  apply getElementById_Some in Hrows as [<- _].
  destruct r as [|[ok [data|]]]; cbn;
    try (eexists; split; [done|]; cbn; by rewrite lookup_alter_ne).
  unfold Admin.fetchUsers_try; cbn.
  destruct (ok && nonempty (employees data)); eexists; (split; [done|]);
    rewrite updatePaginationUI_other by done.
  - rewrite append_rows_other by done. cbn. by rewrite lookup_alter_ne.
  - cbn. by rewrite lookup_alter_ne.
Qed.

Lemma fetchUsers_resume_same_listing (r : Reply) (w : World) :
  ∃ wa wu, Admin.fetchUsers_resume r w = Ok wa ∧
           User.fetchUsers_resume r w = Ok wu ∧
           document wu !! "userRows" = document wa !! "userRows".
Proof.
  unfold Admin.fetchUsers_resume, User.fetchUsers_resume.
  destruct (userRows (document w)) as [rows|] eqn:Hrows; [|by exists w, w].
  apply getElementById_Some in Hrows as [<- _].
  destruct r as [|[ok [data|]]]; cbn; try by eexists _, _.
  unfold Admin.fetchUsers_try, User.fetchUsers_try; cbn.
  destruct (ok && nonempty (employees data)); eexists _, _;
    (do 2 (split; [done|])); rewrite updatePaginationUI_other by done.
  - match goal with
    | |- document (foldl ?f ?wu ?l) !! _ = document (foldl _ ?wa _) !! _ =>
        destruct (append_rows_fields "userRows" l wu) as (_&_&_&_&_&_& ->);
        destruct (append_rows_fields "userRows" l wa) as (_&_&_&_&_&_& ->)
    end.
    done.
  - done.
Qed.

(** X7.  For every reply, user.js and admin.js leave the same content in
    the listing; user.js touches nothing else (no other element, no page
    state, no request), and what admin.js changes in the document besides
    the listing is confined to the four pagination elements. *)
Theorem user_listing_matches_admin (r : Reply) (w : World) :
  ∃ wa wu,
    Admin.fetchUsers_resume r w = Ok wa ∧
    User.fetchUsers_resume r w = Ok wu ∧
    document wu !! "userRows" = document wa !! "userRows" ∧
    (∀ k, k ≠ "userRows" → document wu !! k = document w !! k) ∧
    currentPage wu = currentPage w ∧ totalEmployees wu = totalEmployees w ∧
    requests wu = requests w ∧ pending wu = pending w ∧
    (∀ k, k ∉ ["userRows"; "nextPage"; "prevPage"; "totalPageNum";
               "currentPageNum"] →
          document wa !! k = document w !! k).
Proof.
  destruct (fetchUsers_resume_same_listing r w) as (wa & wu & Ha & Hu & Hsame).
  destruct (user_fetchUsers_resume_frame r w) as (wu' & Hu' & Hframe).
  rewrite Hu in Hu'. injection Hu' as <-.
  exists wa, wu. do 3 (split; [done|]).
  destruct Hframe as (? & ? & ? & ? & ?). do 5 (split; [done|]).
  intros k Hk. rewrite !not_elem_of_cons in Hk.
  destruct Hk as (? & ? & ? & ? & ? & _).
  destruct (admin_fetchUsers_resume_frame r w k) as (wa' & Ha' & ?); [done..|].
  rewrite Ha in Ha'. by injection Ha' as <-.
Qed.

(** *** The club list *)

Section fetchClubs.
Variable w : World.
Hypothesis cards_bound : bound "clubCards" (document w).



End fetchClubs.




(** *** Calling the switching functions again *)

Lemma hide_hide (e : Element) : Admin.hide (Admin.hide e) = Admin.hide e.
Proof.
  unfold Admin.hide, set_display, classList_add, set_classList. cbn.
  f_equal. apply set_eq. intros c. rewrite !elem_of_union. tauto.
Qed.

Lemma hide_reveal_hide (e : Element) :
  Admin.hide (Admin.reveal (Admin.hide e)) = Admin.hide e.
Proof.
  unfold Admin.hide, Admin.reveal, set_display, classList_add,
    classList_remove, set_classList. cbn.
  f_equal. apply set_eq. intros c.
  rewrite !elem_of_union, elem_of_difference, elem_of_union, elem_of_singleton.
  destruct (decide (c = "hidden")); tauto.
Qed.

Lemma reveal_hide_reveal_hide (e : Element) :
  Admin.reveal (Admin.hide (Admin.reveal (Admin.hide e)))
  = Admin.reveal (Admin.hide e).
Proof. by rewrite hide_reveal_hide. Qed.

Lemma admin_showSection_lookup (s : string) (doc : Document) (k : string) :
  Admin.showSection (Some s) doc !! k
  = (λ e,
       let e1 := if decide ("employeesSection" = k) then Admin.hide e else e in
       let e2 := if decide ("clubSection" = k) then Admin.hide e1 else e1 in
       if decide (s = k) then Admin.reveal e2 else e2) <$> doc !! k.
Proof.
  unfold Admin.showSection. cbn [foldl update].
  unfold employeesSection, clubSection.
  rewrite update_self.
  rewrite (update_ref "clubSection") by (intros H; by apply bound_alter in H).
  rewrite !lookup_alter_at.
  destruct (doc !! k) as [e|]; cbn; repeat destruct (decide _); done.
Qed.

Lemma deactivate_deactivate (e : Element) :
  deactivate (deactivate e) = deactivate e.
Proof.
  unfold deactivate, has_class.
  destruct (bool_decide ("nav-tab" ∈ classList e)) eqn:Hn; [|by rewrite Hn].
  apply bool_decide_eq_true in Hn.
  rewrite bool_decide_true
    by (cbn; by rewrite elem_of_difference, elem_of_singleton).
  unfold classList_remove, set_classList. cbn. f_equal.
  apply set_eq. intros c. rewrite !elem_of_difference. tauto.
Qed.

Lemma deactivate_add_deactivate (e : Element) :
  "nav-tab" ∈ classList e →
  deactivate (classList_add "nav-active" (deactivate e)) = deactivate e.
Proof.
  intros Hn. unfold deactivate, has_class.
  rewrite (bool_decide_true _ Hn).
  rewrite bool_decide_true
    by (cbn; rewrite elem_of_union, elem_of_difference, elem_of_singleton;
        right; by split).
  unfold classList_remove, classList_add, set_classList. cbn. f_equal.
  apply set_eq. intros c.
  rewrite !elem_of_difference, elem_of_union, elem_of_difference,
    elem_of_singleton. tauto.
Qed.

Lemma add_deactivate_add_deactivate (e : Element) :
  classList_add "nav-active"
    (deactivate (classList_add "nav-active" (deactivate e)))
  = classList_add "nav-active" (deactivate e).
Proof.
  unfold deactivate at 1, has_class.
  case_bool_decide as Hn.
  - unfold classList_remove, classList_add, set_classList. cbn. f_equal.
    apply set_eq. intros c.
    rewrite !elem_of_union, elem_of_difference, elem_of_union,
      elem_of_singleton.
    destruct (decide (c = "nav-active")); tauto.
  - unfold classList_add, set_classList. cbn. f_equal.
    apply set_eq. intros c. rewrite !elem_of_union. tauto.
Qed.

Lemma setActiveTab_lookup (t : string) (doc : Document) (k : string) :
  setActiveTab (Some t) doc !! k
  = (λ e, if decide (t = k) then classList_add "nav-active" (deactivate e)
          else deactivate e) <$> doc !! k.
Proof.
  unfold setActiveTab. cbn [update].
  rewrite lookup_alter_at, lookup_fmap.
  destruct (doc !! k) as [e|]; cbn; by destruct (decide _).
Qed.

(** X9.  In admin.js the switching functions forget earlier calls:
    showing a section after another section was shown leaves the
    document exactly as if only the last call had been made, and so does
    activating a tab after another tab of class [nav-tab] (or the same
    tab) was activated.  In particular each of them is idempotent. *)
Theorem last_switch_wins (doc : Document) (s s' t t' : string) :
  s = "employeesSection" ∨ s = "clubSection" →
  s' = "employeesSection" ∨ s' = "clubSection" →
  (∀ e, doc !! t' = Some e → t' = t ∨ "nav-tab" ∈ classList e) →
  Admin.showSection (Some s) (Admin.showSection (Some s') doc)
  = Admin.showSection (Some s) doc ∧
  setActiveTab (Some t) (setActiveTab (Some t') doc)
  = setActiveTab (Some t) doc.
Proof.
  intros Hs Hs' Ht'. split; apply map_eq; intros k.
  - rewrite !admin_showSection_lookup.
    destruct (doc !! k) as [e|]; [|done]. cbn. f_equal.
    destruct Hs as [-> | ->], Hs' as [-> | ->];
      repeat destruct (decide _); try congruence;
      by rewrite ?hide_reveal_hide, ?hide_hide.
  - rewrite !setActiveTab_lookup.
    destruct (doc !! k) as [e|] eqn:He; [|done]. cbn. f_equal.
    destruct (decide (t' = k)) as [->|Hne].
    + destruct (Ht' e He) as [-> | Hn].
      * rewrite !decide_True by done. apply add_deactivate_add_deactivate.
      * rewrite deactivate_add_deactivate by done. by destruct (decide _).
    + rewrite deactivate_deactivate. by destruct (decide _).
Qed.

Lemma last_switch_wins_witness :
  let doc := document on_page_two in
  ("clubSection" = "employeesSection" ∨ "clubSection" = "clubSection") ∧
  ("employeesSection" = "employeesSection"
   ∨ "employeesSection" = "clubSection") ∧
  (∀ e, doc !! "usersTab" = Some e →
        "usersTab" = "clubTab" ∨ "nav-tab" ∈ classList e) ∧
  Admin.showSection (Some "clubSection")
    (Admin.showSection (Some "employeesSection") doc)
  = Admin.showSection (Some "clubSection") doc ∧
  setActiveTab (Some "clubTab") (setActiveTab (Some "usersTab") doc)
  = setActiveTab (Some "clubTab") doc.
Proof.
  intros doc.
  assert (Htab : ∀ e, doc !! "usersTab" = Some e →
                      "usersTab" = "clubTab" ∨ "nav-tab" ∈ classList e).
  { intros e. vm_compute. intros [= <-]. right.
    refine (bool_decide_unpack _ _). by vm_compute. }
  split; [by right|]. split; [by left|]. split; [exact Htab|].
  apply (last_switch_wins doc "clubSection" "employeesSection"
           "clubTab" "usersTab"); [by right|by left|exact Htab].
Defined.

(** ** The club form *)

Lemma input_value_bound (id : string) (m : Manager) :
  bound id (document (world m)) →
  input_value id m = Some (default "" (values m !! id)).
Proof. intros Hb. unfold input_value. by rewrite getElementById_bound. Qed.

Lemma input_value_unbound (id : string) (m : Manager) :
  ¬ bound id (document (world m)) → input_value id m = None.
Proof.
  intros Hn. unfold input_value, getElementById.
  destruct (document (world m) !! id) eqn:He; [|done].
  destruct Hn. by eexists.
Qed.

Section club_form_facts.
Variable trim : string → string.
Variable m : Manager.

Lemma validated_bound :
  bound "newClubName" (document (world m)) →
  bound "newClubCode" (document (world m)) →
  let name := trim (default "" (values m !! "newClubName")) in
  let code := trim (default "" (values m !! "newClubCode")) in
  validated trim m
  = Normal (if decide (name = "") then inr "Enter club name!"
            else if digits18 code then inl (name, code)
                 else inr "Code must be 18 digits!").
Proof.
  intros Hn Hc name code. unfold validated.
  rewrite !input_value_bound by done. fold name code.
  destruct (decide (name = "")); [done|].
  case_bool_decide as Hcode; cbn.
  - by rewrite Hcode.
  - by destruct (digits18 code).
Qed.
End club_form_facts.

(** X10.  [handleAddClub] and [handleUpdateClub] send a request exactly
    when the trimmed name is not empty and the trimmed code is 18 decimal
    digits: a POST with those two values, or a PUT with them addressed to
    [editingClubId].  Otherwise they raise one alert and send nothing:
    [Enter club name!] when the name is blank, whatever the code, and
    [Code must be 18 digits!] when only the code is wrong.  Either way
    the page, the inputs and [editingClubId] are left as they were. *)
Theorem club_form_is_validated (trim : string → string) (m : Manager) :
  bound "newClubName" (document (world m)) →
  bound "newClubCode" (document (world m)) →
  let name := trim (default "" (values m !! "newClubName")) in
  let code := trim (default "" (values m !! "newClubCode")) in
  ∃ added updated,
    handleAddClub_start trim m = Normal added ∧
    handleUpdateClub_start trim m = Normal updated ∧
    (world added, values added, editingClubId added)
    = (world m, values m, editingClubId m) ∧
    (world updated, values updated, editingClubId updated)
    = (world m, values m, editingClubId m) ∧
    alerts updated = alerts added ∧
    if decide (name = "") then
      alerts added = alerts m ++ ["Enter club name!"] ∧
      writes added = writes m ∧ writes updated = writes m
    else if digits18 code then
      alerts added = alerts m ∧
      writes added = writes m ++ [PostClub name code] ∧
      writes updated = writes m ++ [PutClub (editingClubId m) name code]
    else
      alerts added = alerts m ++ ["Code must be 18 digits!"] ∧
      writes added = writes m ∧ writes updated = writes m.
Proof.
  intros Hn Hc name code.
  unfold handleAddClub_start, handleUpdateClub_start.
  rewrite validated_bound by done. fold name code.
  destruct (decide (name = "")); [by eexists _, _|].
  destruct (digits18 code); by eexists _, _.
Qed.

Lemma club_form_is_validated_witness :
  let trim := λ s : string, s in
  bound "newClubName" (document (world sample_form)) ∧
  bound "newClubCode" (document (world sample_form)) ∧
  ∃ added updated,
    handleAddClub_start trim sample_form = Normal added ∧
    handleUpdateClub_start trim sample_form = Normal updated ∧
    (world added, values added, editingClubId added)
    = (world sample_form, values sample_form, editingClubId sample_form) ∧
    (world updated, values updated, editingClubId updated)
    = (world sample_form, values sample_form, editingClubId sample_form) ∧
    alerts updated = alerts added ∧
    alerts added = alerts sample_form ∧
    writes added
    = writes sample_form ++ [PostClub "Chess" "123456789012345678"] ∧
    writes updated
    = writes sample_form ++ [PutClub (Some "4") "Chess" "123456789012345678"].
Proof.
  intros trim. split; [evaluate|]. split; [evaluate|].
  exact (club_form_is_validated trim sample_form
           ltac:(evaluate) ltac:(evaluate)).
Defined.

Lemma refresh_and_close_refreshed (m : Manager) :
  bound "clubCards" (document (world m)) →
  bound "addClubModal" (document (world m)) →
  refreshed m (refresh_and_close m) ∧
  writes (refresh_and_close m) = writes m ∧
  values (refresh_and_close m) = values m ∧
  editingClubId (refresh_and_close m) = editingClubId m.
Proof.
  intros Hcards Hmodal. unfold refresh_and_close, refreshed, with_document.
  cbn [world set_world alerts writes values editingClubId document
       set_document currentPage totalEmployees requests].
  rewrite update_self, fetchClubs_start_bound by done.
  cbn [world set_world alerts writes values editingClubId document
       set_document currentPage totalEmployees requests fetch with_document].
  repeat split.
  - unfold issued. cbn. by rewrite drop_app_length.
  - rewrite lookup_alter_eq, lookup_alter_ne by done.
    destruct Hmodal as [e ->]. cbn. apply bool_decide_eq_true.
    apply elem_classList_add. by left.
Qed.

(** X11.  The reply to the POST of [handleAddClub] refreshes the club
    list and closes the form only when the status is ok and the body is
    JSON.  Every other reply raises exactly one alert and leaves the page
    alone: the server's [MESSAGE] for a non-ok status, or
    [Error adding club.] when it has none; and [Server error.] when the
    request failed, when the body is [null], and whenever the body is not
    JSON, even under an ok status.  No reply sends a further write. *)
Theorem add_club_reply (r : WriteReply) (m : Manager) :
  bound "clubCards" (document (world m)) →
  bound "addClubModal" (document (world m)) →
  let m' := handleAddClub_resume r m in
  writes m' = writes m ∧ values m' = values m ∧
  editingClubId m' = editingClubId m ∧
  match r with
  | WriteAnswer true (Some _) => refreshed m m'
  | WriteAnswer false (Some (JsonValue (Some msg))) =>
      alerted (if decide (msg = "") then "Error adding club." else msg) m m'
  | WriteAnswer false (Some (JsonValue None)) =>
      alerted "Error adding club." m m'
  | WriteAnswer false (Some JsonNull) | WriteAnswer _ None | WriteRejected =>
      alerted "Server error." m m'
  end.
Proof.
  intros Hcards Hmodal m'. unfold m', handleAddClub_resume.
  destruct (refresh_and_close_refreshed m Hcards Hmodal) as (? & ? & ? & ?).
  destruct r as [|[] [[|[msg|]]|]]; cbn; try done.
  destruct msg; cbn; by case_decide.
Qed.

(** X12.  The reply to the PUT of [handleUpdateClub] is judged by its
    status alone, the body is never read: an ok status refreshes the club
    list and closes the form, any other status raises [Update failed],
    and a failed request raises [Server error.]. *)
Theorem update_club_reply (r : WriteReply) (m : Manager) :
  bound "clubCards" (document (world m)) →
  bound "addClubModal" (document (world m)) →
  let m' := handleUpdateClub_resume r m in
  writes m' = writes m ∧ values m' = values m ∧
  editingClubId m' = editingClubId m ∧
  match r with
  | WriteAnswer true _ => refreshed m m'
  | WriteAnswer false _ => alerted "Update failed" m m'
  | WriteRejected => alerted "Server error." m m'
  end.
Proof.
  intros Hcards Hmodal m'. unfold m', handleUpdateClub_resume.
  destruct (refresh_and_close_refreshed m Hcards Hmodal) as (? & ? & ? & ?).
  by destruct r as [|[] body]; cbn.
Qed.

(** ** Cookies *)

Lemma app_cons (c : ascii) (x y : string) :
  String c x +:+ y = String c (x +:+ y).
Proof. done. Qed.

Lemma app_empty_l (y : string) : "" +:+ y = y.
Proof. done. Qed.

Lemma app_assoc_string (x y z : string) : (x +:+ y) +:+ z = x +:+ y +:+ z.
Proof. induction x as [|c x IH]; [done|]. by rewrite !app_cons, IH. Qed.

Lemma app_empty_r (x : string) : x +:+ "" = x.
Proof. induction x as [|c x IH]; [done|]. by rewrite app_cons, IH. Qed.

Lemma has_char_app (c : ascii) (x y : string) :
  has_char c (x +:+ y) = has_char c x || has_char c y.
Proof.
  induction x as [|c' x IH]; [done|].
  rewrite app_cons. cbn. rewrite IH. by rewrite orb_assoc.
Qed.

Lemma prefix_app (x r : string) : String.prefix x (x +:+ r) = true.
Proof.
  induction x as [|c x IH]; [by destruct r|].
  rewrite app_cons. cbn [String.prefix]. by destruct (ascii_dec c c).
Qed.

Lemma prefix_cons_ne (c c' : ascii) (x s : string) :
  c ≠ c' → String.prefix (String c x) (String c' s) = false.
Proof. intros Hne. cbn [String.prefix]. by destruct (ascii_dec c c'). Qed.

Lemma prefix_cons_eq (c : ascii) (x s : string) :
  String.prefix (String c x) (String c s) = String.prefix x s.
Proof. cbn [String.prefix]. by destruct (ascii_dec c c). Qed.

(** Passing over the rest of an occurrence. *)
Lemma split_from_skip (sep x b : string) :
  split_from sep (String.length x) (x +:+ b) = split_from sep 0 b.
Proof.
  induction x as [|c x IH]; [by destruct b|].
  by rewrite app_cons.
Qed.

Lemma split_match (sep b : string) :
  sep ≠ "" → split sep (sep +:+ b) = "" :: split sep b.
Proof.
  intros Hne. destruct sep as [|c sep']; [done|].
  unfold split. rewrite app_cons. cbn [split_from].
  rewrite <- app_cons, prefix_app.
  replace (String.length (String c sep') - 1)%nat with (String.length sep')
    by (cbn [String.length]; lia).
  by rewrite split_from_skip.
Qed.

Lemma split_no_match (sep : string) (c : ascii) (s : string) :
  String.prefix sep (String c s) = false →
  split sep (String c s)
  = match split sep s with
    | piece :: pieces => String c piece :: pieces
    | [] => [String c ""]
    end.
Proof. intros Hp. unfold split. cbn [split_from]. by rewrite Hp. Qed.

Lemma split_empty (sep : string) : split sep "" = [""].
Proof. done. Qed.

(** A name can only match the name it is. *)
Lemma name_match (name k r : string) :
  has_char "=" name = false → has_char "=" k = false →
  String.prefix (name +:+ "=") (k +:+ "=" +:+ r) = true → name = k.
Proof.
  revert k. induction name as [|a name IH]; intros [|c k] Hn Hk Hp.
  - done.
  - rewrite app_empty_l, !app_cons in Hp.
    cbn [String.prefix has_char] in Hp, Hk.
    destruct (ascii_dec "=" c) as [<-|]; [|done].
    by rewrite bool_decide_true in Hk.
  - rewrite app_empty_l, !app_cons in Hp.
    cbn [String.prefix has_char] in Hp, Hn.
    destruct (ascii_dec a "=") as [->|]; [|done].
    by rewrite bool_decide_true in Hn.
  - rewrite !app_cons in Hp. cbn [String.prefix has_char] in Hn, Hk, Hp.
    apply orb_false_iff in Hn as [_ Hn]. apply orb_false_iff in Hk as [_ Hk].
    destruct (ascii_dec a c) as [->|]; [|done].
    f_equal. by apply IH.
Qed.

Lemma pair_ok_fields (kv : string * string) :
  pair_ok kv = true →
  has_char "=" kv.1 = false ∧ has_char ";" kv.1 = false ∧
  has_char ";" kv.2 = false.
Proof.
  unfold pair_ok. intros H.
  apply andb_true_iff in H as [H H3]. apply andb_true_iff in H as [H1 H2].
  by rewrite !negb_true_iff in *.
Qed.

Section cookie_split.
Variable name : string.
Hypothesis name_plain : has_char "=" name = false.

Local Abbreviation sep := ("; " +:+ name +:+ "=").

Lemma sep_cons : sep = String ";" (String " " (name +:+ "=")).
Proof. done. Qed.

(** No occurrence can start at a character other than [;]. *)
Lemma split_step (c : ascii) (s : string) :
  c ≠ ";"%char →
  split sep (String c s)
  = match split sep s with
    | piece :: pieces => String c piece :: pieces
    | [] => [String c ""]
    end.
Proof.
  intros Hc. apply split_no_match. rewrite sep_cons.
  by apply prefix_cons_ne.
Qed.

(** Nor at the [;] before a pair of another name. *)
Lemma split_other_pair (kv : string * string) (r : string) :
  has_char "=" kv.1 = false → kv.1 ≠ name →
  String.prefix sep (String ";" (String " " (pair_text kv +:+ r))) = false.
Proof.
  intros Hk Hne. rewrite sep_cons.
  rewrite !prefix_cons_eq. unfold pair_text.
  rewrite !app_assoc_string.
  destruct (String.prefix _ _) eqn:Hp; [|done].
  apply name_match in Hp; [|done..]. by destruct Hne.
Qed.

Lemma split_plain (x r : string) (pieces : list string) (piece : string) :
  has_char ";" x = false →
  split sep r = piece :: pieces →
  split sep (x +:+ r) = (x +:+ piece) :: pieces.
Proof.
  intros Hx Hr. induction x as [|c x IH]; [done|].
  cbn [has_char] in Hx. apply orb_false_iff in Hx as [Hc Hx].
  rewrite (app_cons c x r), split_step by by apply bool_decide_eq_false in Hc.
  by rewrite IH.
Qed.

Lemma pair_plain (kv : string * string) :
  pair_ok kv = true → has_char ";" (" " +:+ pair_text kv) = false.
Proof.
  intros (H1 & H2 & H3)%pair_ok_fields. unfold pair_text.
  by rewrite !has_char_app, H2, H3.
Qed.

(** Past a pair of another name the pieces are those of the rest, the
    first one lengthened. *)
Lemma split_past_pair (kv : string * string) (r piece : string)
    (pieces : list string) :
  pair_ok kv = true → kv.1 ≠ name →
  split sep r = piece :: pieces →
  split sep ("; " +:+ pair_text kv +:+ r)
  = ("; " +:+ pair_text kv +:+ piece) :: pieces.
Proof.
  intros Hok Hne Hr.
  pose proof (pair_ok_fields kv Hok) as (Hk & _).
  change ("; " +:+ pair_text kv +:+ r)
    with (String ";" (String " " (pair_text kv +:+ r))).
  rewrite split_no_match by by apply split_other_pair.
  change (String " " (pair_text kv +:+ r))
    with (" " +:+ pair_text kv +:+ r).
  rewrite <- (app_assoc_string " " (pair_text kv) r).
  rewrite (split_plain _ r pieces piece) by (done || by apply pair_plain).
  by rewrite app_assoc_string.
Qed.

(** A jar without the name is one piece. *)
Lemma split_tail_absent (jar : list (string * string)) :
  Forall (λ kv, pair_ok kv = true) jar → name ∉ jar.*1 →
  split sep (tail_text jar) = [tail_text jar].
Proof.
  induction jar as [|kv jar IH]; intros Hok Hn; [done|].
  apply Forall_cons in Hok as [Hkv Hok].
  cbn in Hn. apply not_elem_of_cons in Hn as [Hne Hn].
  cbn [tail_text]. by rewrite (split_past_pair kv _ _ []) by auto.
Qed.

(** A jar with the name once is two pieces: what precedes the pair, and
    its value with what follows. *)
Lemma split_tail_present (pre post : list (string * string)) (v : string) :
  has_char ";" v = false →
  Forall (λ kv, pair_ok kv = true) pre → name ∉ pre.*1 →
  Forall (λ kv, pair_ok kv = true) post → name ∉ post.*1 →
  split sep (tail_text (pre ++ (name, v) :: post))
  = [tail_text pre; v +:+ tail_text post].
Proof.
  intros Hv Hpre Hnpre Hpost Hnpost.
  induction pre as [|kv pre IH].
  - cbn [app tail_text]. unfold pair_text. cbn [fst snd].
    replace ("; " +:+ (name +:+ "=" +:+ v) +:+ tail_text post)
      with (sep +:+ v +:+ tail_text post)
      by by rewrite !app_assoc_string.
    rewrite split_match by done.
    rewrite (split_plain v (tail_text post) [] (tail_text post)).
    + done.
    + done.
    + by apply split_tail_absent.
  - apply Forall_cons in Hpre as [Hkv Hpre].
    cbn in Hnpre. apply not_elem_of_cons in Hnpre as [Hne Hnpre].
    cbn [app tail_text]. by rewrite (split_past_pair kv _ _ _) by auto.
Qed.
(** One piece more than the pairs of that name. *)
Lemma split_tail_length (jar : list (string * string)) :
  Forall (λ kv, pair_ok kv = true) jar →
  length (split sep (tail_text jar))
  = S (length (filter (λ kv, kv.1 = name) jar)).
Proof.
  induction jar as [|kv jar IH]; intros Hok; [done|].
  apply Forall_cons in Hok as [Hkv Hok]. specialize (IH Hok).
  destruct (split sep (tail_text jar)) as [|piece pieces] eqn:Hs; [done|].
  cbn [tail_text]. destruct (decide (kv.1 = name)) as [Hk|Hk].
  - rewrite filter_cons_True by done.
    apply pair_ok_fields in Hkv as (_ & _ & Hv).
    destruct kv as [k v]. cbn [fst snd] in *. subst k.
    unfold pair_text. cbn [fst snd].
    replace ("; " +:+ (name +:+ "=" +:+ v) +:+ tail_text jar)
      with (sep +:+ v +:+ tail_text jar)
      by by rewrite !app_assoc_string.
    rewrite split_match by done.
    rewrite (split_plain v _ pieces piece) by done.
    cbn [length] in *. by rewrite IH.
  - rewrite filter_cons_False by done.
    by rewrite (split_past_pair kv _ piece pieces).
Qed.
End cookie_split.

Lemma cookie_text_tail (kv : string * string) (jar : list (string * string)) :
  "; " +:+ cookie_text (kv :: jar) = tail_text (kv :: jar).
Proof.
  revert kv. induction jar as [|kv' jar IH]; intros kv.
  - cbn [cookie_text tail_text]. f_equal. symmetry. apply app_empty_r.
  - change (cookie_text (kv :: kv' :: jar))
      with (pair_text kv +:+ "; " +:+ cookie_text (kv' :: jar)).
    by rewrite IH.
Qed.

Lemma split_semicolon_head (v r : string) :
  has_char ";" v = false →
  r = "" ∨ (∃ r', r = String ";" r') →
  head (split ";" (v +:+ r)) = Some v.
Proof.
  intros Hv Hr. induction v as [|c v IH].
  - rewrite app_empty_l. destruct Hr as [->|[r' ->]]; [done|].
    change (String ";" r') with (";" +:+ r'). by rewrite split_match.
  - cbn [has_char] in Hv. apply orb_false_iff in Hv as [Hc Hv].
    apply bool_decide_eq_false in Hc.
    rewrite app_cons, split_no_match by by apply prefix_cons_ne.
    specialize (IH Hv). by destruct (split ";" (v +:+ r)) as [|p ps]; simplify_eq/=.
Qed.

Lemma tail_text_shape (jar : list (string * string)) :
  tail_text jar = "" ∨ ∃ r', tail_text jar = String ";" r'.
Proof. destruct jar as [|kv jar]; [by left|right]. by eexists. Qed.

Lemma getCookie_empty (name : string) : getCookie "" name = None.
Proof.
  unfold getCookie.
  replace (split ("; " +:+ name +:+ "=") ("; " +:+ "")) with ["; "]; [done|].
  change ("; " +:+ "") with (String ";" (String " " "")).
  rewrite split_no_match.
  2: { rewrite sep_cons, !prefix_cons_eq. by destruct name. }
  rewrite split_no_match; [done|].
  rewrite sep_cons. by apply prefix_cons_ne.
Qed.

Lemma getCookie_present
    (jar : list (string * string)) (name v : string) :
  Forall (λ kv, pair_ok kv = true) jar → NoDup jar.*1 →
  has_char "=" name = false → (name, v) ∈ jar →
  getCookie (cookie_text jar) name = Some v.
Proof.
  intros Hok Hnd Hname Hin.
  destruct jar as [|kv0 jar0]; [by apply elem_of_nil in Hin|].
  unfold getCookie. rewrite cookie_text_tail.
  set (jar := kv0 :: jar0) in *.
  apply list_elem_of_split in Hin as (pre & post & Hjar).
  rewrite Hjar in *.
  rewrite fmap_app, fmap_cons in Hnd.
  apply NoDup_app in Hnd as (_ & Hpre & Hpost).
  apply NoDup_cons in Hpost as [Hpost _].
  apply Forall_app in Hok as [Hokpre Hokpost].
  apply Forall_cons in Hokpost as [Hkv Hokpost].
  apply pair_ok_fields in Hkv as (_ & _ & Hv). cbn [fst snd] in *.
  rewrite split_tail_present; try done.
  - cbn. apply split_semicolon_head; [done|apply tail_text_shape].
  - intros Hk. apply (Hpre name Hk). by left.
Qed.

Lemma getCookie_absent (jar : list (string * string)) (name : string) :
  Forall (λ kv, pair_ok kv = true) jar →
  has_char "=" name = false → name ∉ jar.*1 →
  getCookie (cookie_text jar) name = None.
Proof.
  intros Hok Hname Hnin.
  destruct jar as [|kv0 jar0]; [by rewrite getCookie_empty|].
  unfold getCookie. rewrite cookie_text_tail.
  by rewrite split_tail_absent.
Qed.

(** X13.  [getCookie] reads [document.cookie] like a map.  For a cookie
    text made of pairs [name=value] joined by [; ], with distinct names
    that hold no [=] or [;] and values that hold no [;], it returns the
    value stored under the name asked for, and [null] when the name is
    not there. *)
Theorem getCookie_reads_the_jar (jar : list (string * string)) (name : string) :
  Forall (λ kv, pair_ok kv = true) jar → NoDup jar.*1 →
  has_char "=" name = false →
  getCookie (cookie_text jar) name
  = (list_to_map jar : gmap string string) !! name.
Proof.
  intros Hok Hnd Hname.
  destruct (decide (name ∈ jar.*1)) as [Hin|Hnin].
  - apply list_elem_of_fmap in Hin as ([k v] & -> & Hin).
    rewrite (elem_of_list_to_map_1 _ _ _ Hnd Hin).
    by apply getCookie_present.
  - rewrite (not_elem_of_list_to_map_1 _ _ Hnin).
    by apply getCookie_absent.
Qed.

(** X15.  [getCookie] answers only for a name that occurs exactly once:
    when the cookie text holds the name twice or more (as happens when a
    cookie is set under two paths), or not at all, it returns [null]. *)
Theorem getCookie_wants_one_occurrence
    (jar : list (string * string)) (name : string) :
  Forall (λ kv, pair_ok kv = true) jar →
  has_char "=" name = false →
  length (filter (λ kv, kv.1 = name) jar) ≠ 1%nat →
  getCookie (cookie_text jar) name = None.
Proof.
  intros Hok Hname Hcount.
  destruct jar as [|kv0 jar0]; [by rewrite getCookie_empty|].
  unfold getCookie. rewrite cookie_text_tail.
  rewrite split_tail_length by done.
  case_decide as Hlen; [|done]. by injection Hlen as Hlen.
Qed.

Lemma getCookie_wants_one_occurrence_witness :
  let jar := [("club_id", "7"); ("theme", "dark"); ("club_id", "8")] in
  Forall (λ kv, pair_ok kv = true) jar ∧
  has_char "=" "club_id" = false ∧
  length (filter (λ kv, kv.1 = "club_id") jar) ≠ 1%nat ∧
  getCookie (cookie_text jar) "club_id" = None.
Proof.
  intros jar.
  assert (Hok : Forall (λ kv, pair_ok kv = true) jar).
  { refine (bool_decide_unpack _ _). by vm_compute. }
  assert (Hcount : length (filter (λ kv, kv.1 = "club_id") jar) ≠ 1%nat).
  { by vm_compute. }
  split; [exact Hok|]. split; [reflexivity|]. split; [exact Hcount|].
  exact (getCookie_wants_one_occurrence jar "club_id" Hok eq_refl Hcount).
Defined.

Lemma getCookie_reads_the_jar_witness :
  let jar := [("session", "abc=="); ("club_id", "42"); ("theme", "dark")] in
  Forall (λ kv, pair_ok kv = true) jar ∧ NoDup jar.*1 ∧
  has_char "=" "club_id" = false ∧
  getCookie (cookie_text jar) "club_id"
  = (list_to_map jar : gmap string string) !! "club_id".
Proof.
  intros jar.
  assert (Hok : Forall (λ kv, pair_ok kv = true) jar).
  { refine (bool_decide_unpack _ _). by vm_compute. }
  assert (Hnd : NoDup jar.*1).
  { refine (bool_decide_unpack _ _). by vm_compute. }
  split; [exact Hok|]. split; [exact Hnd|]. split; [reflexivity|].
  exact (getCookie_reads_the_jar jar "club_id" Hok Hnd eq_refl).
Defined.



Lemma add_club_reply_witness :
  let r := WriteAnswer true None in
  bound "clubCards" (document (world sample_form)) ∧
  bound "addClubModal" (document (world sample_form)) ∧
  let m' := handleAddClub_resume r sample_form in
  writes m' = writes sample_form ∧ values m' = values sample_form ∧
  editingClubId m' = editingClubId sample_form ∧
  alerted "Server error." sample_form m'.
Proof.
  intros r. split; [evaluate|]. split; [evaluate|].
  exact (add_club_reply r sample_form ltac:(evaluate) ltac:(evaluate)).
Defined.

Lemma update_club_reply_witness :
  let r := WriteAnswer true None in
  bound "clubCards" (document (world sample_form)) ∧
  bound "addClubModal" (document (world sample_form)) ∧
  let m' := handleUpdateClub_resume r sample_form in
  writes m' = writes sample_form ∧ values m' = values sample_form ∧
  editingClubId m' = editingClubId sample_form ∧
  refreshed sample_form m'.
Proof.
  intros r. split; [evaluate|]. split; [evaluate|].
  exact (update_club_reply r sample_form ltac:(evaluate) ltac:(evaluate)).
Defined.
